(** * avt_vimba_camera: the mono camera node (src/mono_camera.cpp)

    A shallow embedding of [MonoCamera]: the frame callback, the dynamic
    reconfigure callback and [updateCameraInfo], over abstract collaborators
    (camera session, calibration manager, camera publisher, Vimba API).
    Every call the node makes to a collaborator is recorded, with its answer,
    in a call log; the properties below are stated on that log, on the value
    returned and on the state left behind. *)

From Stdlib Require Import ZArith NArith List String Ascii Bool Lia.
Import ListNotations.

Local Open Scope Z_scope.
Local Open Scope string_scope.

Set Implicit Arguments.

(* ================================================================== *)
(** * Messages and configuration *)
(* ================================================================== *)

(** A [uint32] field receives a C++ [int] by conversion modulo 2^32. *)
Definition to_uint32 (z : Z) : Z := z mod 2 ^ 32.

(** [float64] array entries are only ever copied by the node; they are kept
    as their 64-bit patterns. *)
Definition float64 := Z.

(** ros::Time *)
Module Time.
Record t := Make { sec : Z; nsec : Z }.
Definition zero : t := Make 0 0.
End Time.

(** std_msgs/Header *)
Module Header.
Record t := Make { seq : Z; stamp : Time.t; frame_id : string }.
Definition empty : t := Make 0 Time.zero "".
Definition set_stamp (v : Time.t) (h : t) : t := Make (seq h) v (frame_id h).
Definition set_frame_id (v : string) (h : t) : t := Make (seq h) (stamp h) v.
End Header.

(** sensor_msgs/RegionOfInterest *)
Module RegionOfInterest.
Record t := Make
    { x_offset : Z; y_offset : Z; height : Z; width : Z; do_rectify : bool }.
Definition empty : t := Make 0 0 0 0 false.
Definition set_x_offset (v : Z) (r : t) : t :=
    Make v (y_offset r) (height r) (width r) (do_rectify r).
Definition set_y_offset (v : Z) (r : t) : t :=
    Make (x_offset r) v (height r) (width r) (do_rectify r).
Definition set_height (v : Z) (r : t) : t :=
    Make (x_offset r) (y_offset r) v (width r) (do_rectify r).
Definition set_width (v : Z) (r : t) : t :=
    Make (x_offset r) (y_offset r) (height r) v (do_rectify r).
Definition set_do_rectify (v : bool) (r : t) : t :=
    Make (x_offset r) (y_offset r) (height r) (width r) v.
End RegionOfInterest.

(** sensor_msgs/CameraInfo *)
Module CameraInfo.
Record t := Make
    { header : Header.t;
      height : Z;
      width : Z;
      distortion_model : string;
      D : list float64;
      K : list float64;
      R : list float64;
      P : list float64;
      binning_x : Z;
      binning_y : Z;
      roi : RegionOfInterest.t }.
Definition empty : t :=
    Make Header.empty 0 0 "" [] [] [] [] 0 0 RegionOfInterest.empty.
Definition set_header (v : Header.t) (c : t) : t :=
    Make v (height c) (width c) (distortion_model c) (D c) (K c) (R c) (P c)
         (binning_x c) (binning_y c) (roi c).
Definition set_height (v : Z) (c : t) : t :=
    Make (header c) v (width c) (distortion_model c) (D c) (K c) (R c) (P c)
         (binning_x c) (binning_y c) (roi c).
Definition set_width (v : Z) (c : t) : t :=
    Make (header c) (height c) v (distortion_model c) (D c) (K c) (R c) (P c)
         (binning_x c) (binning_y c) (roi c).
Definition set_binning_x (v : Z) (c : t) : t :=
    Make (header c) (height c) (width c) (distortion_model c) (D c) (K c) (R c)
         (P c) v (binning_y c) (roi c).
Definition set_binning_y (v : Z) (c : t) : t :=
    Make (header c) (height c) (width c) (distortion_model c) (D c) (K c) (R c)
         (P c) (binning_x c) v (roi c).
Definition set_roi (v : RegionOfInterest.t) (c : t) : t :=
    Make (header c) (height c) (width c) (distortion_model c) (D c) (K c) (R c)
         (P c) (binning_x c) (binning_y c) v.

(** The calibration proper: what a calibration source provides besides the
    image size, i.e. the distortion model and the D, K, R, P matrices. *)
Definition calibration (c : t)
    : string * list float64 * list float64 * list float64 * list float64 :=
    (distortion_model c, D c, K c, R c, P c).
End CameraInfo.

(** sensor_msgs/Image *)
Module Image.
Record t := Make
    { header : Header.t;
      height : Z;
      width : Z;
      encoding : string;
      is_bigendian : Z;
      step : Z;
      data : list Z }.
Definition empty : t := Make Header.empty 0 0 "" 0 0 [].
Definition set_header (v : Header.t) (i : t) : t :=
    Make v (height i) (width i) (encoding i) (is_bigendian i) (step i) (data i).
End Image.

(** The fields of avt_vimba_camera::AvtVimbaCameraConfig that the node reads.
    The numeric ones are C++ [int]s. *)
Module Config.
Record t := Make
    { frame_id : string;
      height : Z;
      width : Z;
      binning_x : Z;
      binning_y : Z;
      roi_offset_x : Z;
      roi_offset_y : Z;
      roi_height : Z;
      roi_width : Z;
      camera_info_url : string }.
Definition set_frame_id (v : string) (c : t) : t :=
    Make v (height c) (width c) (binning_x c) (binning_y c) (roi_offset_x c)
         (roi_offset_y c) (roi_height c) (roi_width c) (camera_info_url c).
End Config.

(** driver_base::SensorLevels *)
Module SensorLevels.
Definition RECONFIGURE_CLOSE : Z := 3.
Definition RECONFIGURE_STOP : Z := 1.
Definition RECONFIGURE_RUNNING : Z := 0.
End SensorLevels.

(* ================================================================== *)
(** * Exceptions and collaborator calls *)
(* ================================================================== *)

(** What a C++ call may throw: an object derived from [std::exception],
    carrying its [what()] text, or any other object (boost::thread_interrupted
    is one that a ROS callback thread can meet). *)
Inductive thrown : Type :=
| StdException (what : string)
| NonStdThrown.

(** How a call ends. *)
Inductive completion (A : Type) : Type :=
| Returned (a : A)
| Threw (e : thrown).
Arguments Returned {A} a.
Arguments Threw {A} e.

Definition thrown_by {A : Type} (r : completion A) : option thrown :=
  match r with Returned _ => None | Threw e => Some e end.

(** A member function of a collaborator whose state has type [S]. *)
Definition method (S A : Type) : Type := S -> completion A * S.

(** AvtVimbaCamera, as the node uses it. The configuration is received as an
    argument; the session keeps whatever it needs of it in its own state.
    The node calls [setCallback] once, with its own [frameCallback] bound to
    itself, so the callback is not an argument here. *)
Class CameraSession (Cam : Type) : Type :=
  { setCallback : method Cam unit;
    stop : method Cam unit;
    start : string -> string -> method Cam unit;
    updateConfig : Config.t -> method Cam unit }.

(** camera_info_manager::CameraInfoManager. [new_CameraInfoManager] is the
    constructor, on the private node handle: the state before it stands for
    what the manager is built from, the state after it is the manager that
    [info_man_] points to. *)
Class CameraInfoManager (Mgr : Type) : Type :=
  { new_CameraInfoManager : method Mgr unit;
    getCameraInfo : method Mgr CameraInfo.t;
    setCameraName : string -> method Mgr bool;
    validateURL : string -> method Mgr bool;
    loadCameraInfo : string -> method Mgr bool;
    setCameraInfo : CameraInfo.t -> method Mgr bool }.

(** image_transport::CameraPublisher, with the image transport it comes
    from: [advertiseCamera] takes the topic and the queue size, and the state
    after it is the publisher assigned to [pub_]. *)
Class CameraPublisher (Pub : Type) : Type :=
  { advertiseCamera : string -> N -> method Pub unit;
    getNumSubscribers : method Pub N;
    publish : Image.t -> CameraInfo.t -> method Pub unit }.

(** AvtVimbaApi, with the SDK's frame handles; [frameToImage] fills the image
    it is handed and tells whether it could. *)
Class VimbaApi (Api : Type) : Type :=
  { FramePtr : Type;
    api_start : method Api unit;
    frameToImage : FramePtr -> Image.t -> method Api (bool * Image.t) }.

Inductive LogLevel : Type := Warn | Error.

(* ================================================================== *)
(** * The node *)
(* ================================================================== *)

Section Node.

Context {Cam Mgr Pub Api : Type}.
Context {session : CameraSession Cam} {manager : CameraInfoManager Mgr}.
Context {publisher : CameraPublisher Pub} {vimba : VimbaApi Api}.

(** The members of [MonoCamera] that the callbacks touch, and the ROS clock
    that [ros::Time::now()] reads. *)
Record MonoCamera : Type := Build_MonoCamera
  { api_ : Api;
    cam_ : Cam;
    pub_ : Pub;
    info_man_ : Mgr;
    ip_ : string;
    guid_ : string;
    camera_info_url_ : string;
    ros_clock : Time.t }.

Definition set_api_ (v : Api) (self : MonoCamera) : MonoCamera :=
  Build_MonoCamera v (cam_ self) (pub_ self) (info_man_ self) (ip_ self)
                   (guid_ self) (camera_info_url_ self) (ros_clock self).
Definition set_cam_ (v : Cam) (self : MonoCamera) : MonoCamera :=
  Build_MonoCamera (api_ self) v (pub_ self) (info_man_ self) (ip_ self)
                   (guid_ self) (camera_info_url_ self) (ros_clock self).
Definition set_pub_ (v : Pub) (self : MonoCamera) : MonoCamera :=
  Build_MonoCamera (api_ self) (cam_ self) v (info_man_ self) (ip_ self)
                   (guid_ self) (camera_info_url_ self) (ros_clock self).
Definition set_info_man_ (v : Mgr) (self : MonoCamera) : MonoCamera :=
  Build_MonoCamera (api_ self) (cam_ self) (pub_ self) v (ip_ self)
                   (guid_ self) (camera_info_url_ self) (ros_clock self).

(** One entry of the call log: a call to a collaborator with its arguments
    and its answer, or a line written to the ROS console. *)
Inductive Event : Type :=
| ApiStart (r : completion unit)
| FrameToImage (frame : FramePtr) (r : completion (bool * Image.t))
| CamSetCallback (r : completion unit)
| CamStop (r : completion unit)
| CamStart (ip guid : string) (r : completion unit)
| CamUpdateConfig (config : Config.t) (r : completion unit)
| AdvertiseCamera (base_topic : string) (queue_size : N) (r : completion unit)
| GetNumSubscribers (r : completion N)
| Publish (img : Image.t) (ci : CameraInfo.t) (r : completion unit)
| NewCameraInfoManager (r : completion unit)
| GetCameraInfo (r : completion CameraInfo.t)
| SetCameraName (cname : string) (r : completion bool)
| ValidateURL (url : string) (r : completion bool)
| LoadCameraInfo (url : string) (r : completion bool)
| SetCameraInfo (ci : CameraInfo.t) (r : completion bool)
| RosLog (level : LogLevel) (msg : string).

(** What a logged call threw, if it threw. *)
Definition raised (ev : Event) : option thrown :=
  match ev with
  | ApiStart r | CamSetCallback r | CamStop r | CamStart _ _ r
  | CamUpdateConfig _ r | AdvertiseCamera _ _ r | Publish _ _ r
  | NewCameraInfoManager r => thrown_by r
  | FrameToImage _ r => thrown_by r
  | GetNumSubscribers r => thrown_by r
  | GetCameraInfo r => thrown_by r
  | SetCameraName _ r | ValidateURL _ r | LoadCameraInfo _ r
  | SetCameraInfo _ r => thrown_by r
  | RosLog _ _ => None
  end.

(** ** Reading the call log *)

Definition is_session_call (ev : Event) : bool :=
  match ev with
  | CamSetCallback _ | CamStop _ | CamStart _ _ _ | CamUpdateConfig _ _ => true
  | _ => false
  end.

Definition is_manager_call (ev : Event) : bool :=
  match ev with
  | NewCameraInfoManager _ | GetCameraInfo _ | SetCameraName _ _
  | ValidateURL _ _ | LoadCameraInfo _ _ | SetCameraInfo _ _ => true
  | _ => false
  end.

(** How many conversions were asked of the API. *)
Fixpoint conversions (log : list Event) : nat :=
  match log with
  | [] => O
  | FrameToImage _ _ :: rest => S (conversions rest)
  | _ :: rest => conversions rest
  end.

(** The (image, calibration) pairs handed to the publisher. *)
Fixpoint publications (log : list Event) : list (Image.t * CameraInfo.t) :=
  match log with
  | [] => []
  | Publish img ci _ :: rest => (img, ci) :: publications rest
  | _ :: rest => publications rest
  end.

(** The records handed to the manager with [setCameraInfo], oldest first. *)
Fixpoint pushed (log : list Event) : list CameraInfo.t :=
  match log with
  | [] => []
  | SetCameraInfo ci _ :: rest => ci :: pushed rest
  | _ :: rest => pushed rest
  end.

(** The URLs the manager was asked to load. *)
Fixpoint loads (log : list Event) : list string :=
  match log with
  | [] => []
  | LoadCameraInfo url _ :: rest => url :: loads rest
  | _ :: rest => loads rest
  end.

(** The camera names the manager was given. *)
Fixpoint names (log : list Event) : list string :=
  match log with
  | [] => []
  | SetCameraName cname _ :: rest => cname :: names rest
  | _ :: rest => names rest
  end.

(** The configurations handed to the camera session. *)
Fixpoint applied (log : list Event) : list Config.t :=
  match log with
  | [] => []
  | CamUpdateConfig config _ :: rest => config :: applied rest
  | _ :: rest => applied rest
  end.

(** The console lines written at a level. *)
Fixpoint logged (level : LogLevel) (log : list Event) : list string :=
  match log with
  | [] => []
  | RosLog l msg :: rest =>
      match l, level with
      | Warn, Warn | Error, Error => msg :: logged level rest
      | _, _ => logged level rest
      end
  | _ :: rest => logged level rest
  end.

(** ** Running member functions: state, exceptions and the call log *)

Record run (A : Type) : Type := Build_run
  { result : completion A;
    after : MonoCamera;
    calls : list Event }.

Definition M (A : Type) : Type := MonoCamera -> run A.

Definition ret {A : Type} (a : A) : M A :=
  fun self => Build_run (Returned a) self [].

(** Sequencing: an exception ends the sequence where it is thrown. *)
Definition bind {A B : Type} (m : M A) (k : A -> M B) : M B :=
  fun self =>
    match m self with
    | Build_run (Returned a) self' log =>
        match k a self' with
        | Build_run r self'' log' => Build_run r self'' (log ++ log')
        end
    | Build_run (Threw e) self' log => Build_run (Threw e) self' log
    end.

Local Notation "x <- m ;; k" := (bind m (fun x => k))
  (at level 100, m at next level, right associativity).
Local Notation "m ;; k" := (bind m (fun _ => k))
  (at level 100, right associativity).

(** [try { body } catch (const std::exception& e) { handler(e.what()) }]:
    only objects derived from [std::exception] enter the handler. *)
Definition try_catch {A : Type} (body : M A) (handler : string -> M A) : M A :=
  fun self =>
    match body self with
    | Build_run (Threw (StdException what)) self' log =>
        match handler what self' with
        | Build_run r self'' log' => Build_run r self'' (log ++ log')
        end
    | r => r
    end.

Definition on_api {A : Type} (log : completion A -> Event) (m : method Api A)
  : M A :=
  fun self => let (r, s) := m (api_ self) in
              Build_run r (set_api_ s self) [log r].
Definition on_cam {A : Type} (log : completion A -> Event) (m : method Cam A)
  : M A :=
  fun self => let (r, s) := m (cam_ self) in
              Build_run r (set_cam_ s self) [log r].
Definition on_pub {A : Type} (log : completion A -> Event) (m : method Pub A)
  : M A :=
  fun self => let (r, s) := m (pub_ self) in
              Build_run r (set_pub_ s self) [log r].
Definition on_info_man {A : Type} (log : completion A -> Event)
  (m : method Mgr A) : M A :=
  fun self => let (r, s) := m (info_man_ self) in
              Build_run r (set_info_man_ s self) [log r].

(** Reading a member. *)
Definition member {A : Type} (field : MonoCamera -> A) : M A :=
  fun self => Build_run (Returned (field self)) self [].

Definition ros_Time_now : M Time.t := member ros_clock.
Definition ROS_WARN_STREAM (msg : string) : M unit :=
  fun self => Build_run (Returned tt) self [RosLog Warn msg].
Definition ROS_ERROR_STREAM (msg : string) : M unit :=
  fun self => Build_run (Returned tt) self [RosLog Error msg].

(** ** MonoCamera::frameCallback (lines 80-92) *)
Definition frameCallback (vimba_frame_ptr : FramePtr) : M unit :=
  ros_time <- ros_Time_now ;;
  n <- on_pub GetNumSubscribers getNumSubscribers ;;
  if (0 <? n)%N then
    converted <- on_api (FrameToImage vimba_frame_ptr)
                        (frameToImage vimba_frame_ptr Image.empty) ;;
    let (ok, img) := converted : bool * Image.t in
    if ok then
      ci <- on_info_man GetCameraInfo getCameraInfo ;;
      let img :=
        Image.set_header (Header.set_stamp ros_time (Image.header img)) img in
      let ci :=
        CameraInfo.set_header
          (Header.set_stamp ros_time (CameraInfo.header ci)) ci in
      on_pub (Publish img ci) (publish img ci)
    else
      ROS_WARN_STREAM "Function frameToImage returned 0. No image published."
  else ret tt.

(** ** MonoCamera::updateCameraInfo (lines 128-168) *)

(** Lines 134-146: frame id, resolution, binning and ROI go from the
    configuration into the record. *)
Definition set_operational_parameters (config : Config.t) (ci : CameraInfo.t)
  : CameraInfo.t :=
  let ci :=
    CameraInfo.set_header
      (Header.set_frame_id (Config.frame_id config) (CameraInfo.header ci))
      ci in
  let ci := CameraInfo.set_height (to_uint32 (Config.height config)) ci in
  let ci := CameraInfo.set_width (to_uint32 (Config.width config)) ci in
  let ci := CameraInfo.set_binning_x (to_uint32 (Config.binning_x config)) ci in
  let ci := CameraInfo.set_binning_y (to_uint32 (Config.binning_y config)) ci in
  let roi := CameraInfo.roi ci in
  let roi :=
    RegionOfInterest.set_x_offset (to_uint32 (Config.roi_offset_x config))
                                  roi in
  let roi :=
    RegionOfInterest.set_y_offset (to_uint32 (Config.roi_offset_y config))
                                  roi in
  let roi :=
    RegionOfInterest.set_height (to_uint32 (Config.roi_height config)) roi in
  let roi :=
    RegionOfInterest.set_width (to_uint32 (Config.roi_width config)) roi in
  CameraInfo.set_roi roi ci.

(** Lines 159-162. A [uint32] field compared with an [int]: the [int] is
    converted first. *)
Definition roiMatchesCalibration (config : Config.t) (ci : CameraInfo.t)
  : bool :=
  Z.eqb (CameraInfo.height ci) (to_uint32 (Config.roi_height config))
  && Z.eqb (CameraInfo.width ci) (to_uint32 (Config.roi_width config)).
Definition resolutionMatchesCalibration (config : Config.t)
  (ci : CameraInfo.t) : bool :=
  Z.eqb (CameraInfo.width ci) (to_uint32 (Config.width config))
  && Z.eqb (CameraInfo.height ci) (to_uint32 (Config.height config)).

(** Line 164 *)
Definition set_do_rectify (config : Config.t) (ci : CameraInfo.t)
  : CameraInfo.t :=
  CameraInfo.set_roi
    (RegionOfInterest.set_do_rectify
       (roiMatchesCalibration config ci
        || resolutionMatchesCalibration config ci)
       (CameraInfo.roi ci))
    ci.

Definition updateCameraInfo (config : Config.t) : M unit :=
  ci <- on_info_man GetCameraInfo getCameraInfo ;;
  let ci := set_operational_parameters config ci in
  camera_info_url <- member camera_info_url_ ;;
  ci <- (if negb (String.eqb (Config.camera_info_url config) camera_info_url)
         then
           on_info_man (SetCameraName (Config.frame_id config))
                       (setCameraName (Config.frame_id config)) ;;
           valid <- on_info_man (ValidateURL (Config.camera_info_url config))
                                (validateURL (Config.camera_info_url config)) ;;
           if valid : bool then
             on_info_man (LoadCameraInfo (Config.camera_info_url config))
                         (loadCameraInfo (Config.camera_info_url config)) ;;
             on_info_man GetCameraInfo getCameraInfo
           else
             ROS_WARN_STREAM ("Camera info URL not valid: "
                              ++ Config.camera_info_url config) ;;
             ret ci
         else ret ci) ;;
  let ci := set_do_rectify config ci in
  on_info_man (SetCameraInfo ci) (setCameraInfo ci) ;;
  ret tt.

(** How a member function ends when its last statement is a call whose value
    it drops. *)
Definition ended {A : Type} (r : completion A) : completion unit :=
  match r with Returned _ => Returned tt | Threw e => Threw e end.

(** The ways through [updateCameraInfo], each with the answers of the
    manager that lead there, the state left and the calls made.
    [updateCameraInfo_runs] below shows that every run is one of them. *)
Inductive updateCameraInfo_path (config : Config.t) (self : MonoCamera)
  : run unit -> Prop :=
| path_no_record e m :
    getCameraInfo (info_man_ self) = (Threw e, m) ->
    updateCameraInfo_path config self
      (Build_run (Threw e) (set_info_man_ m self) [GetCameraInfo (Threw e)])
| path_same_url ci0 m1 r m2 :
    getCameraInfo (info_man_ self) = (Returned ci0, m1) ->
    Config.camera_info_url config = camera_info_url_ self ->
    let ci := set_do_rectify config (set_operational_parameters config ci0) in
    setCameraInfo ci m1 = (r, m2) ->
    updateCameraInfo_path config self
      (Build_run (ended r) (set_info_man_ m2 self)
         [GetCameraInfo (Returned ci0); SetCameraInfo ci r])
| path_name_threw ci0 m1 e m2 :
    getCameraInfo (info_man_ self) = (Returned ci0, m1) ->
    Config.camera_info_url config <> camera_info_url_ self ->
    setCameraName (Config.frame_id config) m1 = (Threw e, m2) ->
    updateCameraInfo_path config self
      (Build_run (Threw e) (set_info_man_ m2 self)
         [GetCameraInfo (Returned ci0);
          SetCameraName (Config.frame_id config) (Threw e)])
| path_validate_threw ci0 m1 named m2 e m3 :
    getCameraInfo (info_man_ self) = (Returned ci0, m1) ->
    Config.camera_info_url config <> camera_info_url_ self ->
    setCameraName (Config.frame_id config) m1 = (Returned named, m2) ->
    validateURL (Config.camera_info_url config) m2 = (Threw e, m3) ->
    updateCameraInfo_path config self
      (Build_run (Threw e) (set_info_man_ m3 self)
         [GetCameraInfo (Returned ci0);
          SetCameraName (Config.frame_id config) (Returned named);
          ValidateURL (Config.camera_info_url config) (Threw e)])
| path_invalid_url ci0 m1 named m2 m3 r m4 :
    getCameraInfo (info_man_ self) = (Returned ci0, m1) ->
    Config.camera_info_url config <> camera_info_url_ self ->
    setCameraName (Config.frame_id config) m1 = (Returned named, m2) ->
    validateURL (Config.camera_info_url config) m2 = (Returned false, m3) ->
    let ci := set_do_rectify config (set_operational_parameters config ci0) in
    setCameraInfo ci m3 = (r, m4) ->
    updateCameraInfo_path config self
      (Build_run (ended r) (set_info_man_ m4 self)
         [GetCameraInfo (Returned ci0);
          SetCameraName (Config.frame_id config) (Returned named);
          ValidateURL (Config.camera_info_url config) (Returned false);
          RosLog Warn ("Camera info URL not valid: "
                       ++ Config.camera_info_url config);
          SetCameraInfo ci r])
| path_load_threw ci0 m1 named m2 m3 e m4 :
    getCameraInfo (info_man_ self) = (Returned ci0, m1) ->
    Config.camera_info_url config <> camera_info_url_ self ->
    setCameraName (Config.frame_id config) m1 = (Returned named, m2) ->
    validateURL (Config.camera_info_url config) m2 = (Returned true, m3) ->
    loadCameraInfo (Config.camera_info_url config) m3 = (Threw e, m4) ->
    updateCameraInfo_path config self
      (Build_run (Threw e) (set_info_man_ m4 self)
         [GetCameraInfo (Returned ci0);
          SetCameraName (Config.frame_id config) (Returned named);
          ValidateURL (Config.camera_info_url config) (Returned true);
          LoadCameraInfo (Config.camera_info_url config) (Threw e)])
| path_reload_threw ci0 m1 named m2 m3 loaded m4 e m5 :
    getCameraInfo (info_man_ self) = (Returned ci0, m1) ->
    Config.camera_info_url config <> camera_info_url_ self ->
    setCameraName (Config.frame_id config) m1 = (Returned named, m2) ->
    validateURL (Config.camera_info_url config) m2 = (Returned true, m3) ->
    loadCameraInfo (Config.camera_info_url config) m3 = (Returned loaded, m4) ->
    getCameraInfo m4 = (Threw e, m5) ->
    updateCameraInfo_path config self
      (Build_run (Threw e) (set_info_man_ m5 self)
         [GetCameraInfo (Returned ci0);
          SetCameraName (Config.frame_id config) (Returned named);
          ValidateURL (Config.camera_info_url config) (Returned true);
          LoadCameraInfo (Config.camera_info_url config) (Returned loaded);
          GetCameraInfo (Threw e)])
| path_reloaded ci0 m1 named m2 m3 loaded m4 ci1 m5 r m6 :
    getCameraInfo (info_man_ self) = (Returned ci0, m1) ->
    Config.camera_info_url config <> camera_info_url_ self ->
    setCameraName (Config.frame_id config) m1 = (Returned named, m2) ->
    validateURL (Config.camera_info_url config) m2 = (Returned true, m3) ->
    loadCameraInfo (Config.camera_info_url config) m3 = (Returned loaded, m4) ->
    getCameraInfo m4 = (Returned ci1, m5) ->
    let ci := set_do_rectify config ci1 in
    setCameraInfo ci m5 = (r, m6) ->
    updateCameraInfo_path config self
      (Build_run (ended r) (set_info_man_ m6 self)
         [GetCameraInfo (Returned ci0);
          SetCameraName (Config.frame_id config) (Returned named);
          ValidateURL (Config.camera_info_url config) (Returned true);
          LoadCameraInfo (Config.camera_info_url config) (Returned loaded);
          GetCameraInfo (Returned ci1);
          SetCameraInfo ci r]).

(** ** MonoCamera::configure (lines 103-126) *)

(** Lines 106-108 *)
Definition resolve_frame_id (newconfig : Config.t) : Config.t :=
  if String.eqb (Config.frame_id newconfig) ""
  then Config.set_frame_id "camera" newconfig
  else newconfig.

(** Lines 111-113 and again 116-118 *)
Definition restart_and_update (newconfig : Config.t) : M unit :=
  on_cam CamStop stop ;;
  ip <- member ip_ ;;
  guid <- member guid_ ;;
  on_cam (CamStart ip guid) (start ip guid) ;;
  on_cam (CamUpdateConfig newconfig) (updateConfig newconfig).

(** Lines 110-121: what the level asks of the camera session. *)
Definition apply_to_session (newconfig : Config.t) (level : Z) : M unit :=
  if negb (Z.eqb (Z.land level SensorLevels.RECONFIGURE_CLOSE) 0) then
    restart_and_update newconfig
  else if negb (Z.eqb (Z.land level SensorLevels.RECONFIGURE_STOP) 0) then
    restart_and_update newconfig
  else
    on_cam (CamUpdateConfig newconfig) (updateConfig newconfig).

(** The [try] block from line 109 on, for the configuration with its frame id
    resolved. *)
Definition configure_try (newconfig : Config.t) (level : Z) : M unit :=
  apply_to_session newconfig level ;;
  updateCameraInfo newconfig.

Definition configure_catch (what : string) : M unit :=
  ROS_ERROR_STREAM ("Error reconfiguring mono_camera node : " ++ what).

(** What the [catch] clause makes of the way the [try] block ended: how
    [configure] ends, and the line it writes. *)
Definition caught (newconfig : Config.t) (r : completion unit)
  : completion Config.t :=
  match r with
  | Returned _ | Threw (StdException _) => Returned newconfig
  | Threw NonStdThrown => Threw NonStdThrown
  end.

Definition error_line (r : completion unit) : list Event :=
  match r with
  | Threw (StdException what) =>
      [RosLog Error ("Error reconfiguring mono_camera node : " ++ what)]
  | _ => []
  end.

(** [newconfig] is passed by reference; the value it holds when [configure]
    returns is the value returned here. *)
Definition configure (newconfig : Config.t) (level : Z) : M Config.t :=
  let newconfig := resolve_frame_id newconfig in
  try_catch (configure_try newconfig level) configure_catch ;;
  ret newconfig.

(** ** MonoCamera::MonoCamera (lines 49-73)

    [param] is the private parameter server; [initial] is the configuration
    with which the reconfigure server calls [configure] as soon as the
    callback is set (line 72), at level 0xffffffff. [pub] and [mgr] are what
    the publisher and the manager are made from: line 57 assigns [pub_] and
    line 60 assigns [info_man_], each from a call that may throw. The
    constructor has no handler: what one of its calls throws leaves it. *)
Definition param_or (param : string -> option string) (key default : string)
  : string :=
  match param key with Some v => v | None => default end.

Definition read_params (param : string -> option string) : M unit :=
  fun self =>
    Build_run (Returned tt)
      (Build_MonoCamera (api_ self) (cam_ self) (pub_ self) (info_man_ self)
         (param_or param "ip" "") (param_or param "guid" "")
         (param_or param "camera_info_url" "") (ros_clock self))
      [].

Definition MonoCamera_new (api : Api) (cam : Cam) (pub : Pub) (mgr : Mgr)
  (clock : Time.t) (param : string -> option string) (initial : Config.t)
  : run Config.t :=
  (on_api ApiStart api_start ;;
   on_pub (AdvertiseCamera "image_raw" 1) (advertiseCamera "image_raw" 1) ;;
   on_info_man NewCameraInfoManager new_CameraInfoManager ;;
   on_cam CamSetCallback setCallback ;;
   read_params param ;;
   ip <- member ip_ ;;
   guid <- member guid_ ;;
   on_cam (CamStart ip guid) (start ip guid) ;;
   configure initial 4294967295)
    (Build_MonoCamera api cam pub mgr "" "" "" clock).

End Node.

Arguments MonoCamera : clear implicits.

(* ================================================================== *)
(** * Test doubles for the collaborators *)
(* ================================================================== *)

(** A camera session that follows a script: each call takes the next entry,
    throws what the entry says or else succeeds; past the end of the script
    every call succeeds. *)
Module ScriptedSession.
Record t := Make
  { script : list (option thrown);
    opened : option (string * string);
    applied : option Config.t }.

Definition scripted (effect : t -> t) : method t unit :=
  fun s =>
    match script s with
    | Some e :: rest => (Threw e, Make rest (opened s) (applied s))
    | None :: rest => (Returned tt, effect (Make rest (opened s) (applied s)))
    | [] => (Returned tt, effect s)
    end.

#[global] Instance session : CameraSession t :=
  {| setCallback := scripted (fun s => s);
     stop := scripted (fun s => Make (script s) None (applied s));
     start := fun ip guid =>
       scripted (fun s => Make (script s) (Some (ip, guid)) (applied s));
     updateConfig := fun config =>
       scripted (fun s => Make (script s) (opened s) (Some config)) |}.
End ScriptedSession.

(** A calibration manager over a table of calibration sources, after
    camera_info_manager: it holds one record, a camera name and a URL, and
    reloads lazily after the camera name changed. It never throws. *)
Module TableManager.
Record t := Make
  { cam_info_ : CameraInfo.t;
    camera_name_ : string;
    url_ : string;
    loaded_cam_info_ : bool;
    sources : list (string * CameraInfo.t) }.

Fixpoint lookup (url : string) (table : list (string * CameraInfo.t))
  : option CameraInfo.t :=
  match table with
  | [] => None
  | (u, ci) :: rest => if String.eqb u url then Some ci else lookup url rest
  end.

Definition loadCalibration (url : string) (m : t) : bool * t :=
  match lookup url (sources m) with
  | Some ci =>
      (true, Make ci (camera_name_ m) (url_ m) (loaded_cam_info_ m) (sources m))
  | None => (false, m)
  end.

Definition valid (url : string) : bool :=
  String.eqb url "" || String.prefix "file://" url
  || String.prefix "package://" url || String.prefix "flash://" url.

#[global] Instance manager : CameraInfoManager t :=
  {| new_CameraInfoManager := fun m =>
       (Returned tt, Make CameraInfo.empty "camera" "" false (sources m));
     getCameraInfo := fun m =>
       if loaded_cam_info_ m then (Returned (cam_info_ m), m)
       else
         let m' :=
           snd (loadCalibration (url_ m)
                  (Make (cam_info_ m) (camera_name_ m) (url_ m) true
                        (sources m))) in
         (Returned (cam_info_ m'), m');
     setCameraName := fun cname m =>
       if String.eqb cname "" then (Returned false, m)
       else (Returned true,
             Make (cam_info_ m) cname (url_ m) false (sources m));
     validateURL := fun url m => (Returned (valid url), m);
     loadCameraInfo := fun url m =>
       let (ok, m') :=
         loadCalibration url
           (Make (cam_info_ m) (camera_name_ m) url true (sources m)) in
       (Returned ok, m');
     setCameraInfo := fun ci m =>
       (Returned true, Make ci (camera_name_ m) (url_ m) true (sources m)) |}.
End TableManager.

(** A publisher that counts its subscribers and keeps what it was given. *)
Module RecordingPublisher.
Record t := Make
  { subscribers : N;
    published : list (Image.t * CameraInfo.t) }.

#[global] Instance publisher : CameraPublisher t :=
  {| advertiseCamera := fun base_topic queue_size p =>
       (Returned tt, Make (subscribers p) []);
     getNumSubscribers := fun p => (Returned (subscribers p), p);
     publish := fun img ci p =>
       (Returned tt, Make (subscribers p) (published p ++ [(img, ci)])) |}.
End RecordingPublisher.

(** Frames that say whether they arrived complete, and an API that converts
    the complete ones to mono8 images. *)
Module PlainApi.
Record frame := Frame
  { complete : bool;
    frame_height : Z;
    frame_width : Z;
    buffer : list Z }.

#[global] Instance vimba : VimbaApi unit :=
  {| FramePtr := frame;
     api_start := fun api => (Returned tt, api);
     frameToImage := fun f img api =>
       if complete f then
         (Returned
            (true,
             Image.Make (Image.header img) (frame_height f) (frame_width f)
                        "mono8" 0 (frame_width f) (buffer f)),
          api)
       else (Returned (false, img), api) |}.
End PlainApi.

(** ** A bench: the node on the four doubles

    The session is open on 10.0.0.2, the manager was built without a URL and
    holds [held], and one calibration source exists, at [vga_url]. *)
Module Bench.
Definition Node : Type :=
  MonoCamera ScriptedSession.t TableManager.t RecordingPublisher.t unit.

(** A calibration for a 640x480 sensor, as a calibration file provides it. *)
Definition vga_calibration : CameraInfo.t :=
  CameraInfo.Make Header.empty 480 640 "plumb_bob" [1; 2; 3; 4; 5]
    [6; 0; 7; 0; 8; 9; 0; 0; 1] [1; 0; 0; 0; 1; 0; 0; 0; 1]
    [6; 0; 7; 0; 0; 8; 9; 0; 0; 0; 1; 0] 0 0 RegionOfInterest.empty.

Definition vga_url : string := "file:///calib/vga.yaml".

Definition bench (script : list (option thrown)) (held : CameraInfo.t)
  (subscribers : N) (startup_url : string) : Node :=
  Build_MonoCamera tt
    (ScriptedSession.Make script (Some ("10.0.0.2", "")) None)
    (RecordingPublisher.Make subscribers [])
    (TableManager.Make held "camera" "" true [(vga_url, vga_calibration)])
    "10.0.0.2" "" startup_url (Time.Make 1700000000 250).

(** A frame that arrived complete, and one that did not. *)
Definition whole_frame : @FramePtr unit PlainApi.vimba :=
  PlainApi.Frame true 2 2 [1; 2; 3; 4].

(** The record the manager holds. *)
Definition held_by (self : Node) : CameraInfo.t :=
  TableManager.cam_info_ (info_man_ self).
End Bench.

(* ================================================================== *)
(** * Properties *)
(* ================================================================== *)

Local Open Scope list_scope.

Lemma to_uint32_small (z : Z) : 0 <= z < 2 ^ 32 -> to_uint32 z = z.
Proof. intros Hz. unfold to_uint32. apply Z.mod_small. exact Hz. Qed.

(** A requested size that a [uint32] can hold is written as it is. *)
Lemma set_operational_parameters_size (config : Config.t) (ci : CameraInfo.t) :
  0 <= Config.height config < 2 ^ 32 ->
  0 <= Config.width config < 2 ^ 32 ->
  CameraInfo.height (set_operational_parameters config ci)
  = Config.height config
  /\ CameraInfo.width (set_operational_parameters config ci)
     = Config.width config.
Proof.
  intros Hh Hw. cbn. rewrite (to_uint32_small Hh), (to_uint32_small Hw).
  split; reflexivity.
Qed.

(** Case analysis on the answers of the collaborators, one call at a time. *)
Ltac answer :=
  match goal with
  | |- context [let (_, _) := ?call in _] =>
      match type of call with
      | (completion _ * _)%type =>
          let E := fresh "Hcall" in
          destruct call as [[?|?] ?] eqn:E
      end
  end.

Ltac branch :=
  match goal with
  | |- context [if ?b then _ else _] =>
      let E := fresh "Hif" in destruct b eqn:E
  | |- context [let (_, _) := ?p in _] =>
      is_var p;
      match type of p with (_ * _)%type => destruct p end
  | |- context [match ?e with StdException _ => _ | NonStdThrown => _ end] =>
      is_var e; destruct e
  end.

Ltac run_through := repeat (cbn; first [answer | branch]); cbn.

(** Equations between log entries that a hypothesis [In ev log] leaves. *)
Ltac entries :=
  repeat match goal with
         | H : @eq (@Event _ _) _ _ |- _ =>
             first [discriminate H | inversion H; clear H; subst]
         end.

Ltac settle :=
  cbn in *; intuition idtac; entries; cbn in *;
  try discriminate; try congruence; auto.

Section FrameCallback.

Context {Cam Mgr Pub Api : Type}.
Context {session : CameraSession Cam} {manager : CameraInfoManager Mgr}.
Context {publisher : CameraPublisher Pub} {vimba : VimbaApi Api}.

(** The callback begins by asking the publisher for its subscriber count,
    so the first entry of the log is the publisher's answer on entry. *)
Lemma frameCallback_asks_first (self : MonoCamera Cam Mgr Pub Api)
  (frame : FramePtr) :
  hd_error (calls (frameCallback frame self))
  = Some (GetNumSubscribers (fst (getNumSubscribers (pub_ self)))).
Proof.
  unfold frameCallback, bind, ros_Time_now, member, on_pub, on_api,
    on_info_man, ROS_WARN_STREAM, ret.
  run_through; reflexivity.
Qed.

(** C6. When the publisher reports zero subscribers, the frame callback asks
    for no conversion and publishes nothing: the subscriber query is the only
    call it makes, and it returns. *)
Theorem frameCallback_idle (self : MonoCamera Cam Mgr Pub Api)
  (frame : FramePtr) :
  In (GetNumSubscribers (Returned 0%N)) (calls (frameCallback frame self)) ->
  conversions (calls (frameCallback frame self)) = O
  /\ publications (calls (frameCallback frame self)) = []
  /\ calls (frameCallback frame self) = [GetNumSubscribers (Returned 0%N)]
  /\ result (frameCallback frame self) = Returned tt.
Proof.
  unfold frameCallback, bind, ros_Time_now, member, on_pub, on_api,
    on_info_man, ROS_WARN_STREAM, ret.
  run_through; settle.
Qed.



End FrameCallback.

(** *** The frame callback on the bench *)

Lemma frameCallback_idle_bench :
  let run := frameCallback Bench.whole_frame
               (Bench.bench [] Bench.vga_calibration 0 "") in
  conversions (calls run) = O
  /\ publications (calls run) = []
  /\ calls run = [GetNumSubscribers (Returned 0%N)]
  /\ result run = Returned tt.
Proof.
  apply (frameCallback_idle (Bench.bench [] Bench.vga_calibration 0 "")
           Bench.whole_frame).
  cbn. left. reflexivity.
Defined.

(** ** The call log *)

Section CallLog.

Context {Api : Type} {vimba : VimbaApi Api}.

Lemma pushed_app (l1 l2 : list Event) :
  pushed (l1 ++ l2) = pushed l1 ++ pushed l2.
Proof.
  induction l1 as [|ev l1 IH]; [reflexivity|].
  destruct ev; cbn; rewrite ?IH; reflexivity.
Qed.

Lemma loads_app (l1 l2 : list Event) : loads (l1 ++ l2) = loads l1 ++ loads l2.
Proof.
  induction l1 as [|ev l1 IH]; [reflexivity|].
  destruct ev; cbn; rewrite ?IH; reflexivity.
Qed.

Lemma names_app (l1 l2 : list Event) : names (l1 ++ l2) = names l1 ++ names l2.
Proof.
  induction l1 as [|ev l1 IH]; [reflexivity|].
  destruct ev; cbn; rewrite ?IH; reflexivity.
Qed.

Lemma applied_app (l1 l2 : list Event) :
  applied (l1 ++ l2) = applied l1 ++ applied l2.
Proof.
  induction l1 as [|ev l1 IH]; [reflexivity|].
  destruct ev; cbn; rewrite ?IH; reflexivity.
Qed.

Lemma logged_app (level : LogLevel) (l1 l2 : list Event) :
  logged level (l1 ++ l2) = logged level l1 ++ logged level l2.
Proof.
  induction l1 as [|ev l1 IH]; [reflexivity|].
  destruct ev; cbn; rewrite ?IH; try reflexivity.
  destruct level0, level; cbn; rewrite ?IH; reflexivity.
Qed.

(** A log of session calls holds nothing for the manager and no console
    line. *)
Lemma session_log (log : list Event) :
  forallb is_session_call log = true ->
  pushed log = [] /\ loads log = [] /\ names log = []
  /\ (forall level, logged level log = [])
  /\ (forall ev, In ev log -> is_session_call ev = true).
Proof.
  induction log as [|ev log IH]; cbn.
  - intros _. repeat split. intros ev [].
  - intros H. apply andb_prop in H. destruct H as [Hev Hlog].
    destruct (IH Hlog) as (Hp & Hl & Hn & Hg & Hin).
    destruct ev; try discriminate Hev; (repeat split; auto);
      intros ev [<- | Hev']; auto.
Qed.

(** A log of manager calls and warnings holds nothing for the session and no
    error line. *)
Lemma manager_log (log : list Event) :
  forallb (fun ev => is_manager_call ev
                     || match ev with RosLog Warn _ => true | _ => false end)
          log = true ->
  applied log = [] /\ logged Error log = []
  /\ (forall ev, In ev log -> is_session_call ev = false).
Proof.
  induction log as [|ev log IH]; cbn.
  - intros _. repeat split. intros ev [].
  - intros H. apply andb_prop in H. destruct H as [Hev Hlog].
    destruct (IH Hlog) as (Ha & Hg & Hin).
    destruct ev as [| | | | | | | | | | | | | | | [|] msg];
      try discriminate Hev;
      cbn; (repeat split; auto); intros ev [<- | Hev']; auto.
Qed.

End CallLog.

(** ** Reconfiguration *)

Section Reconfigure.

Context {Cam Mgr Pub Api : Type}.
Context {session : CameraSession Cam} {manager : CameraInfoManager Mgr}.
Context {publisher : CameraPublisher Pub} {vimba : VimbaApi Api}.

Lemma resolve_frame_id_url (newconfig : Config.t) :
  Config.camera_info_url (resolve_frame_id newconfig)
  = Config.camera_info_url newconfig.
Proof. unfold resolve_frame_id. destruct (String.eqb _ _); reflexivity. Qed.

Lemma calibration_set_operational_parameters (config : Config.t)
  (ci : CameraInfo.t) :
  CameraInfo.calibration (set_operational_parameters config ci)
  = CameraInfo.calibration ci.
Proof. reflexivity. Qed.

Lemma calibration_set_do_rectify (config : Config.t) (ci : CameraInfo.t) :
  CameraInfo.calibration (set_do_rectify config ci) = CameraInfo.calibration ci.
Proof. reflexivity. Qed.

(** The session part of [configure] talks to the session only, and changes
    nothing of the node but the session. *)
Lemma apply_to_session_run (self : MonoCamera Cam Mgr Pub Api)
  (newconfig : Config.t) (level : Z) :
  forallb is_session_call (calls (apply_to_session newconfig level self)) = true
  /\ (exists cam, after (apply_to_session newconfig level self)
                  = set_cam_ cam self)
  /\ (forall config,
         In config (applied (calls (apply_to_session newconfig level self))) ->
         config = newconfig).
Proof.
  unfold apply_to_session, restart_and_update, bind, member, on_cam.
  run_through; (split; [reflexivity | split; [eexists; reflexivity |]]);
    cbn; intuition.
Qed.


#[local] Arguments set_operational_parameters : simpl never.
#[local] Arguments set_do_rectify : simpl never.
#[local] Arguments String.append : simpl never.

Lemma set_info_man_twice (m m' : Mgr) (self : MonoCamera Cam Mgr Pub Api) :
  set_info_man_ m' (set_info_man_ m self) = set_info_man_ m' self.
Proof. reflexivity. Qed.

Lemma updateCameraInfo_runs (config : Config.t)
  (self : MonoCamera Cam Mgr Pub Api) :
  updateCameraInfo_path config self (updateCameraInfo config self).
Proof.
  unfold updateCameraInfo, bind, member, on_info_man, ROS_WARN_STREAM, ret.
  run_through; rewrite ?set_info_man_twice;
    repeat match goal with
      | H : negb (String.eqb _ _) = true |- _ =>
          apply negb_true_iff, String.eqb_neq in H
      | H : negb (String.eqb _ _) = false |- _ =>
          apply negb_false_iff, String.eqb_eq in H
      | H : setCameraInfo _ _ = (?r, _) |- context [Build_run (Returned tt)] =>
          change (Returned tt) with (ended r)
      | H : setCameraInfo _ _ = (Threw ?e, _) |- _ =>
          change (@Threw unit e) with (ended (@Threw bool e))
      end.
  all: econstructor; eassumption.
Qed.


(** Going through the entries of a log given by extension. *)
Ltac each_entry H :=
  cbn in H;
  repeat (match type of H with _ \/ _ => destruct H as [H | H] end);
  try contradiction; try discriminate H; try (inversion H; subst).

(** Reasoning by the ways through [updateCameraInfo]. *)
Ltac by_paths config self :=
  let Hp := fresh "Hpath" in
  let u := fresh "u" in
  pose proof (updateCameraInfo_runs config self) as Hp;
  set (u := updateCameraInfo config self) in *; clearbody u;
  destruct Hp; subst; cbn [result after calls] in *.

(** [updateCameraInfo] talks to the manager and may write a warning; it
    changes nothing of the node but the manager. *)
Lemma updateCameraInfo_log (config : Config.t)
  (self : MonoCamera Cam Mgr Pub Api) :
  forallb (fun ev => is_manager_call ev
                     || match ev with RosLog Warn _ => true | _ => false end)
    (calls (updateCameraInfo config self)) = true
  /\ exists m, after (updateCameraInfo config self) = set_info_man_ m self.
Proof. by_paths config self; split; try reflexivity; eexists; reflexivity. Qed.

(** An exception ends [updateCameraInfo] exactly when a call to the manager
    threw it, and that call is the last one made. *)
Lemma updateCameraInfo_thrown (config : Config.t)
  (self : MonoCamera Cam Mgr Pub Api) :
  (forall ev e,
      In ev (calls (updateCameraInfo config self)) -> raised ev = Some e ->
      result (updateCameraInfo config self) = Threw e)
  /\ (forall e,
         result (updateCameraInfo config self) = Threw e ->
         exists ev,
           In ev (calls (updateCameraInfo config self)) /\ raised ev = Some e)
  /\ (result (updateCameraInfo config self) = Returned tt ->
      exists ci, pushed (calls (updateCameraInfo config self)) = [ci]).
Proof.
  by_paths config self; (split; [|split]).
  all: try (intros ev e' Hin Hraised; each_entry Hin;
            cbn in Hraised; try discriminate Hraised;
            try (destruct r; cbn in * ); congruence).
  all: try (intros e' He; try (destruct r; cbn in He); try discriminate He;
            inversion He; subst; eexists; split;
            [ cbn; eauto 10 | reflexivity ]).
  all: intros Hr; try (destruct r; cbn in Hr); try discriminate Hr;
    eexists; reflexivity.
Qed.


Lemma do_rectify_set_do_rectify (config : Config.t) (ci : CameraInfo.t) :
  RegionOfInterest.do_rectify (CameraInfo.roi (set_do_rectify config ci))
  = roiMatchesCalibration config ci || resolutionMatchesCalibration config ci.
Proof. reflexivity. Qed.

(** Once the operational parameters are written, the record's size is the
    requested resolution, whatever size it had. *)
Lemma resolution_matches_after_set (config : Config.t) (ci : CameraInfo.t) :
  resolutionMatchesCalibration config (set_operational_parameters config ci)
  = true.
Proof.
  unfold resolutionMatchesCalibration, set_operational_parameters. cbn.
  rewrite !Z.eqb_refl. reflexivity.
Qed.

(** The requested URL is the stored one: the manager is asked for its record
    and given it back with the operational parameters and the flag; no name
    is set and nothing is loaded. *)
Lemma updateCameraInfo_same_url (config : Config.t)
  (self : MonoCamera Cam Mgr Pub Api) :
  Config.camera_info_url config = camera_info_url_ self ->
  loads (calls (updateCameraInfo config self)) = []
  /\ names (calls (updateCameraInfo config self)) = []
  /\ logged Warn (calls (updateCameraInfo config self)) = []
  /\ forall ci0,
      In (GetCameraInfo (Returned ci0))
         (calls (updateCameraInfo config self)) ->
      pushed (calls (updateCameraInfo config self))
      = [set_do_rectify config (set_operational_parameters config ci0)].
Proof.
  intros Hurl. by_paths config self; try contradiction.
  - repeat split. intros ci0 Hin. each_entry Hin.
  - repeat split. intros ci0' Hin. each_entry Hin. reflexivity.
Qed.

(** Validation was asked and failed: the URL differs from the stored one,
    nothing is loaded, the warning is written, and the record given back to
    the manager is the one it held, with the operational parameters and the
    flag. *)
Lemma updateCameraInfo_invalid_url (config : Config.t)
  (self : MonoCamera Cam Mgr Pub Api) :
  In (ValidateURL (Config.camera_info_url config) (Returned false))
     (calls (updateCameraInfo config self)) ->
  Config.camera_info_url config <> camera_info_url_ self
  /\ loads (calls (updateCameraInfo config self)) = []
  /\ logged Warn (calls (updateCameraInfo config self))
     = ["Camera info URL not valid: " ++ Config.camera_info_url config]%string
  /\ exists ci0 a,
      let ci := set_do_rectify config (set_operational_parameters config ci0) in
      In (GetCameraInfo (Returned ci0)) (calls (updateCameraInfo config self))
      /\ In (SetCameraInfo ci a) (calls (updateCameraInfo config self))
      /\ pushed (calls (updateCameraInfo config self)) = [ci]
      /\ result (updateCameraInfo config self) = ended a.
Proof.
  intros Hin. by_paths config self; each_entry Hin.
  repeat split; auto. exists ci0, r. cbn. intuition.
Qed.

(** The requested URL differs from the stored one: once the manager has given
    its record it is given the camera name; once it has taken the name it is
    asked to validate the URL; once it has found the URL valid it is asked to
    load it. *)
Lemma updateCameraInfo_new_url (config : Config.t)
  (self : MonoCamera Cam Mgr Pub Api) :
  Config.camera_info_url config <> camera_info_url_ self ->
  ((exists ci0,
       In (GetCameraInfo (Returned ci0)) (calls (updateCameraInfo config self)))
   -> names (calls (updateCameraInfo config self)) = [Config.frame_id config])
  /\ ((exists named,
          In (SetCameraName (Config.frame_id config) (Returned named))
             (calls (updateCameraInfo config self)))
      -> exists a,
          In (ValidateURL (Config.camera_info_url config) a)
             (calls (updateCameraInfo config self)))
  /\ (In (ValidateURL (Config.camera_info_url config) (Returned true))
         (calls (updateCameraInfo config self))
      -> loads (calls (updateCameraInfo config self))
         = [Config.camera_info_url config]).
Proof.
  intros Hurl. by_paths config self; try contradiction;
    (split; [intros [ci0' Hin] | split; [intros [named' Hin] | intros Hin]]);
    each_entry Hin; try reflexivity; eexists; cbn; eauto 10.
Qed.

(** What reaches the manager carries the frame id of the configuration: the
    camera name always, the record whenever nothing was loaded. *)
Lemma updateCameraInfo_without_load (config : Config.t)
  (self : MonoCamera Cam Mgr Pub Api) :
  (forall cname,
      In cname (names (calls (updateCameraInfo config self))) ->
      cname = Config.frame_id config)
  /\ (loads (calls (updateCameraInfo config self)) = [] ->
      forall ci,
        In ci (pushed (calls (updateCameraInfo config self))) ->
        exists ci0,
          In (GetCameraInfo (Returned ci0))
             (calls (updateCameraInfo config self))
          /\ ci = set_do_rectify config
                    (set_operational_parameters config ci0)).
Proof.
  by_paths config self; split.
  all: try (intros cname Hin; each_entry Hin; reflexivity).
  all: intros Hloads ci' Hin; try discriminate Hloads; each_entry Hin.
  all: eexists; split; [cbn; eauto | reflexivity].
Qed.


(** *** The session part *)

Lemma apply_to_session_thrown (self : MonoCamera Cam Mgr Pub Api)
  (newconfig : Config.t) (level : Z) :
  (forall ev e,
      In ev (calls (apply_to_session newconfig level self)) ->
      raised ev = Some e ->
      result (apply_to_session newconfig level self) = Threw e)
  /\ (forall e,
         result (apply_to_session newconfig level self) = Threw e ->
         exists ev,
           In ev (calls (apply_to_session newconfig level self))
           /\ raised ev = Some e)
  /\ (result (apply_to_session newconfig level self) = Returned tt ->
      applied (calls (apply_to_session newconfig level self)) = [newconfig]).
Proof.
  unfold apply_to_session, restart_and_update, bind, member, on_cam.
  run_through; (split; [|split]).
  all: try (intros ev e' Hin Hraised; each_entry Hin;
            cbn in Hraised; congruence).
  all: try (intros e' He;
            first [ discriminate He
                  | inversion He; subst; eexists; split;
                    [cbn; eauto 10 | reflexivity] ]).
  all: intros Hr; try discriminate Hr; reflexivity.
Qed.

(** *** [configure], from its parts *)

Lemma configure_try_run (self : MonoCamera Cam Mgr Pub Api) (c : Config.t)
  (level : Z) :
  configure_try c level self
  = let s := apply_to_session c level self in
    match result s with
    | Returned _ =>
        let u := updateCameraInfo c (after s) in
        Build_run (result u) (after u) (calls s ++ calls u)
    | Threw e => Build_run (Threw e) (after s) (calls s)
    end.
Proof.
  unfold configure_try, bind. cbv zeta.
  destruct (apply_to_session c level self) as [[[]|e] s ls]; cbn;
    [|reflexivity].
  destruct (updateCameraInfo c s) as [ru su lu]; reflexivity.
Qed.

Lemma configure_run (self : MonoCamera Cam Mgr Pub Api)
  (newconfig : Config.t) (level : Z) :
  configure newconfig level self
  = let c := resolve_frame_id newconfig in
    let t := configure_try c level self in
    Build_run (caught c (result t)) (after t)
              (calls t ++ error_line (result t)).
Proof.
  unfold configure, try_catch, configure_catch, ROS_ERROR_STREAM, bind, ret.
  cbv zeta.
  destruct (configure_try (resolve_frame_id newconfig) level self)
    as [[[]|[what|]] s l]; cbn; rewrite ?app_nil_r; reflexivity.
Qed.

Lemma error_line_log (r : completion unit) :
  pushed (error_line r) = [] /\ loads (error_line r) = []
  /\ names (error_line r) = [] /\ applied (error_line r) = []
  /\ logged Warn (error_line r) = []
  /\ (forall ev, In ev (error_line r) -> raised ev = None)
  /\ (forall ev, In ev (error_line r) ->
                 is_manager_call ev = false /\ is_session_call ev = false).
Proof.
  destruct r as [|[what|]]; cbn; (repeat split; auto); intros;
    repeat match goal with
           | H : _ \/ _ |- _ => destruct H
           | H : False |- _ => contradiction
           end;
    subst; auto.
Qed.


Lemma session_call_not_manager_call (ev : Event) :
  is_session_call ev = true -> is_manager_call ev = false.
Proof. destruct ev; cbn; congruence. Qed.

(** What [configure] says to the manager is what [updateCameraInfo] says to
    it, on the node as the session part left it; nothing when the session
    part threw. *)
Lemma configure_manager_log (self : MonoCamera Cam Mgr Pub Api)
  (newconfig : Config.t) (level : Z) :
  exists lu,
    (lu = []
     \/ exists cam,
         lu = calls (updateCameraInfo (resolve_frame_id newconfig)
                                      (set_cam_ cam self)))
    /\ pushed (calls (configure newconfig level self)) = pushed lu
    /\ loads (calls (configure newconfig level self)) = loads lu
    /\ names (calls (configure newconfig level self)) = names lu
    /\ logged Warn (calls (configure newconfig level self)) = logged Warn lu
    /\ (forall ev, is_manager_call ev = true ->
                   In ev (calls (configure newconfig level self)) <-> In ev lu).
Proof.
  rewrite configure_run. cbv zeta. cbn [calls].
  rewrite configure_try_run. cbv zeta.
  set (c := resolve_frame_id newconfig).
  destruct (apply_to_session_run self c level) as (Hs & [cam Hcam] & _).
  destruct (session_log _ Hs) as (Hp & Hl & Hn & Hg & Hin).
  destruct (apply_to_session c level self) as [[[]|e] s ls];
    cbn [result after calls] in *; subst s.
  - set (u := updateCameraInfo c (set_cam_ cam self)).
    destruct (error_line_log (result u)) as (Ep & El & En & _ & Eg & _ & Ein).
    exists (calls u). split; [right; exists cam; reflexivity|].
    rewrite !pushed_app, !loads_app, !names_app, !logged_app.
    rewrite Hp, Hl, Hn, Hg, Ep, El, En, Eg, !app_nil_r. cbn.
    do 4 (split; [reflexivity|]).
    intros ev Hm. rewrite !in_app_iff. split; [|auto].
    intros [[H|H]|H]; auto.
    + apply Hin, session_call_not_manager_call in H. congruence.
    + apply Ein in H. destruct H. congruence.
  - destruct (error_line_log (Threw e)) as (Ep & El & En & _ & Eg & _ & Ein).
    exists []. split; [left; reflexivity|].
    rewrite !pushed_app, !loads_app, !names_app, !logged_app.
    rewrite Hp, Hl, Hn, Hg, Ep, El, En, Eg. cbn.
    do 4 (split; [reflexivity|]).
    intros ev Hm. rewrite !in_app_iff. split; [|contradiction].
    intros [H|H].
    + apply Hin, session_call_not_manager_call in H. congruence.
    + apply Ein in H. destruct H. congruence.
Qed.



(** How a reconfiguration goes: the session part makes its calls; if one of
    them throws, the handler takes over; otherwise [updateCameraInfo] runs on
    the node with its new session, and the handler takes over if it throws. *)
Lemma configure_view (self : MonoCamera Cam Mgr Pub Api)
  (newconfig : Config.t) (level : Z) :
  let c := resolve_frame_id newconfig in
  let r := configure newconfig level self in
  exists ls cam,
    forallb is_session_call ls = true
    /\ (forall config, In config (applied ls) -> config = c)
    /\ after (configure_try c level self) = after r
    /\ ((exists e,
            calls r = ls ++ error_line (Threw e)
            /\ result r = caught c (Threw e)
            /\ after r = set_cam_ cam self
            /\ (exists ev, In ev ls /\ raised ev = Some e)
            /\ forall ev e', In ev ls -> raised ev = Some e' -> e' = e)
        \/ (let u := updateCameraInfo c (set_cam_ cam self) in
            calls r = ls ++ calls u ++ error_line (result u)
            /\ result r = caught c (result u)
            /\ after r = after u
            /\ applied ls = [c]
            /\ forall ev, In ev ls -> raised ev = None)).
Proof.
  cbv zeta. rewrite configure_run. cbv zeta. cbn [result after calls].
  rewrite configure_try_run. cbv zeta.
  set (c := resolve_frame_id newconfig).
  destruct (apply_to_session_run self c level) as (Hs & [cam Hcam] & Happ).
  destruct (apply_to_session_thrown self c level) as (Hraised & Hthrew & Hok).
  destruct (apply_to_session c level self) as [[[]|e] s ls];
    cbn [result after calls] in *; subst s; exists ls, cam;
    (split; [exact Hs | split; [exact Happ | split; [reflexivity|]]]).
  - right. rewrite <- app_assoc. repeat split; auto.
    intros ev Hin. destruct (raised ev) as [e|] eqn:He; [|reflexivity].
    specialize (Hraised ev e Hin He). discriminate Hraised.
  - left. exists e. repeat split; auto.
    intros ev e' Hin He. specialize (Hraised ev e' Hin He). congruence.
Qed.

(** C4. When the manager is asked to validate the requested URL and finds it
    invalid, the URL differs from the stored one, nothing is loaded, the
    warning is written, the record given back to the manager carries the
    calibration of the record it gave, and the reconfiguration returns
    without an error line once the manager has taken the record. *)
Theorem configure_invalid_url_keeps_calibration
  (self : MonoCamera Cam Mgr Pub Api) (newconfig : Config.t) (level : Z) :
  In (ValidateURL (Config.camera_info_url newconfig) (Returned false))
     (calls (configure newconfig level self)) ->
  Config.camera_info_url newconfig <> camera_info_url_ self
  /\ loads (calls (configure newconfig level self)) = []
  /\ logged Warn (calls (configure newconfig level self))
     = [("Camera info URL not valid: "
         ++ Config.camera_info_url newconfig)%string]
  /\ exists ci0 ci a,
      In (GetCameraInfo (Returned ci0)) (calls (configure newconfig level self))
      /\ In (SetCameraInfo ci a) (calls (configure newconfig level self))
      /\ pushed (calls (configure newconfig level self)) = [ci]
      /\ CameraInfo.calibration ci = CameraInfo.calibration ci0
      /\ (forall stored,
             a = Returned stored ->
             result (configure newconfig level self)
             = Returned (resolve_frame_id newconfig)
             /\ logged Error (calls (configure newconfig level self)) = []).
Proof.
  intros Hin. rewrite <- (resolve_frame_id_url newconfig) in *.
  destruct (configure_view self newconfig level)
    as (ls & cam & Hs & _ & _ & [(e & Hcalls & _) | Hreached]).
  - (* the session part threw: the manager was never asked *)
    rewrite Hcalls in Hin. apply in_app_iff in Hin. destruct Hin as [Hin | Hin].
    + destruct (session_log _ Hs) as (_ & _ & _ & _ & Hsess).
      apply Hsess in Hin. discriminate Hin.
    + apply (error_line_log (Threw e)) in Hin. destruct Hin as [Hin _].
      discriminate Hin.
  - cbv zeta in Hreached.
    set (c := resolve_frame_id newconfig) in *.
    set (u := updateCameraInfo c (set_cam_ cam self)) in *.
    destruct Hreached as (Hcalls & Hres & _ & _ & _).
    destruct (session_log _ Hs) as (Hp & Hl & Hn & Hg & Hsess).
    destruct (error_line_log (result u)) as (Ep & El & En & _ & Eg & _ & Ein).
    assert (Hu : In (ValidateURL (Config.camera_info_url c) (Returned false))
                    (calls u)).
    { rewrite Hcalls in Hin. rewrite !in_app_iff in Hin.
      destruct Hin as [Hin | [Hin | Hin]]; auto.
      - apply Hsess in Hin. discriminate Hin.
      - apply Ein in Hin. destruct Hin as [Hin _]. discriminate Hin. }
    destruct (updateCameraInfo_invalid_url c (set_cam_ cam self) Hu)
      as (Hurl & Hloads & Hwarn & ci0 & a & Hget & Hset & Hpushed & Hended).
    fold u in Hloads, Hwarn, Hget, Hset, Hpushed, Hended.
    rewrite Hcalls, Hres.
    rewrite !loads_app, !logged_app, !pushed_app.
    rewrite Hp, Hl, !Hg, Ep, El, Eg, Hloads, Hwarn, Hpushed.
    repeat split; auto.
    exists ci0, (set_do_rectify c (set_operational_parameters c ci0)), a.
    rewrite !in_app_iff. do 4 (split; [auto|]).
    intros stored ->. rewrite Hended. split; [reflexivity|].
    destruct (manager_log _
                (proj1 (updateCameraInfo_log c (set_cam_ cam self))))
      as (_ & Herr & _).
    fold u in Herr. rewrite Herr. reflexivity.
Qed.

Lemma caught_not_std (c : Config.t) (r : completion unit) (what : string) :
  caught c r <> Threw (StdException what).
Proof. destruct r as [|[|]]; discriminate. Qed.

(** How a reconfiguration ends, by what its calls threw. *)
Lemma configure_outcome (self : MonoCamera Cam Mgr Pub Api)
  (newconfig : Config.t) (level : Z) :
  let c := resolve_frame_id newconfig in
  let r := configure newconfig level self in
  (forall what, result r <> Threw (StdException what))
  /\ (forall ev what,
         In ev (calls r) -> raised ev = Some (StdException what) ->
         result r = Returned c
         /\ logged Error (calls r)
            = ["Error reconfiguring mono_camera node : " ++ what]%string)
  /\ (forall ev,
         In ev (calls r) -> raised ev = Some NonStdThrown ->
         result r = Threw NonStdThrown /\ logged Error (calls r) = [])
  /\ ((forall ev, In ev (calls r) -> raised ev = None) ->
      result r = Returned c
      /\ logged Error (calls r) = []
      /\ applied (calls r) = [c]
      /\ exists ci, pushed (calls r) = [ci]).
Proof.
  cbv zeta.
  destruct (configure_view self newconfig level)
    as (ls & cam & Hs & _ & _ & Hview).
  cbv zeta in Hview.
  set (c := resolve_frame_id newconfig) in *.
  set (r := configure newconfig level self) in *.
  destruct (session_log _ Hs) as (Hp & _ & _ & Hg & _).
  destruct Hview as [(e & Hcalls & Hres & _ & (ev0 & Hin0 & He0) & Hone)
                    | (Hcalls & Hres & _ & Happ & Hquiet)].
  - (* the session part threw [e] *)
    rewrite Hcalls, Hres, logged_app, Hg.
    assert (Hraises : forall ev e',
               In ev (ls ++ error_line (Threw e)) -> raised ev = Some e' ->
               e' = e).
    { intros ev e' Hin He. apply in_app_iff in Hin. destruct Hin as [Hin|Hin].
      - eapply Hone; eassumption.
      - destruct (error_line_log (Threw e)) as (_ & _ & _ & _ & _ & Hq & _).
        rewrite (Hq _ Hin) in He. discriminate. }
    split; [intros what; apply caught_not_std|].
    split; [|split].
    + intros ev what Hin He. rewrite <- (Hraises _ _ Hin He). cbn. auto.
    + intros ev Hin He. rewrite <- (Hraises _ _ Hin He). cbn. auto.
    + intros Hnone. specialize (Hnone ev0). rewrite He0 in Hnone.
      assert (Some e = None) by (apply Hnone, in_app_iff; auto).
      discriminate.
  - (* [updateCameraInfo] was reached *)
    set (u := updateCameraInfo c (set_cam_ cam self)) in *.
    destruct (updateCameraInfo_thrown c (set_cam_ cam self))
      as (Hraised & Hthrew & Hok).
    destruct (manager_log _
                (proj1 (updateCameraInfo_log c (set_cam_ cam self))))
      as (Huapp & Huerr & _).
    fold u in Hraised, Hthrew, Hok, Huapp, Huerr.
    rewrite Hcalls, Hres, !logged_app, !applied_app, !pushed_app.
    rewrite Hg, Hp, Huerr, Huapp, Happ.
    assert (Hraises : forall ev e',
               In ev (ls ++ calls u ++ error_line (result u)) ->
               raised ev = Some e' -> result u = Threw e').
    { intros ev e' Hin He. rewrite !in_app_iff in Hin.
      destruct Hin as [Hin | [Hin | Hin]].
      - rewrite (Hquiet _ Hin) in He. discriminate.
      - eapply Hraised; eassumption.
      - destruct (error_line_log (result u)) as (_ & _ & _ & _ & _ & Hq & _).
        rewrite (Hq _ Hin) in He. discriminate. }
    split; [intros what; apply caught_not_std|].
    split; [|split].
    + intros ev what Hin He. rewrite (Hraises _ _ Hin He). cbn. auto.
    + intros ev Hin He. rewrite (Hraises _ _ Hin He). cbn. auto.
    + intros Hnone. destruct (result u) as [[]|e] eqn:Hu.
      * destruct (Hok eq_refl) as [ci Hci]. rewrite Hci. cbn. eauto.
      * destruct (Hthrew e eq_refl) as (ev & Hin & He).
        assert (Some e = None).
        { rewrite <- He. apply Hnone. rewrite !in_app_iff. auto. }
        discriminate.
Qed.

(** C5, as the code has it. A [std::exception] thrown by any call of a
    reconfiguration is caught in [configure] and logged as an error, and
    [configure] returns; an object of another type passes through the handler
    unlogged. Either way the node is left as the [try] block left it, and
    [configure] never ends by a [std::exception]. A later reconfiguration in
    which no call throws returns, logs no error, hands the configuration to
    the session and a record to the manager. *)
Theorem configure_absorbs_std_exceptions (self : MonoCamera Cam Mgr Pub Api)
  (newconfig : Config.t) (level : Z) (newconfig' : Config.t) (level' : Z) :
  let r := configure newconfig level self in
  let r' := configure newconfig' level' (after r) in
  (forall what, result r <> Threw (StdException what))
  /\ (forall ev what,
         In ev (calls r) -> raised ev = Some (StdException what) ->
         result r = Returned (resolve_frame_id newconfig)
         /\ logged Error (calls r)
            = ["Error reconfiguring mono_camera node : " ++ what]%string)
  /\ (forall ev,
         In ev (calls r) -> raised ev = Some NonStdThrown ->
         result r = Threw NonStdThrown /\ logged Error (calls r) = [])
  /\ after r = after (configure_try (resolve_frame_id newconfig) level self)
  /\ ((forall ev, In ev (calls r') -> raised ev = None) ->
      result r' = Returned (resolve_frame_id newconfig')
      /\ logged Error (calls r') = []
      /\ applied (calls r') = [resolve_frame_id newconfig']
      /\ exists ci, pushed (calls r') = [ci]).
Proof.
  cbv zeta.
  destruct (configure_outcome self newconfig level)
    as (Hstd & Hcaught & Hpass & _).
  destruct (configure_outcome (after (configure newconfig level self))
              newconfig' level') as (_ & _ & _ & Hnext).
  destruct (configure_view self newconfig level)
    as (_ & _ & _ & _ & Hafter & _).
  repeat split; auto.
  - apply (Hcaught ev what); assumption.
  - apply (Hcaught ev what); assumption.
  - apply (Hpass ev); assumption.
  - apply (Hpass ev); assumption.
  - apply Hnext; assumption.
  - apply Hnext; assumption.
  - apply Hnext; assumption.
  - apply Hnext; assumption.
Qed.

(** *** The frame id *)

Lemma frame_id_pushed (config : Config.t) (ci : CameraInfo.t) :
  Header.frame_id
    (CameraInfo.header
       (set_do_rectify config (set_operational_parameters config ci)))
  = Config.frame_id config.
Proof. reflexivity. Qed.

(** The frame id in force when the request leaves it empty. It is "camera"
    in the configuration [configure] returns, in every configuration handed
    to the session, in every camera name given to the manager, in the record
    as line 134 writes it, and in every record given to the manager when
    nothing was loaded after that line. *)
Lemma configure_defaults_frame_id (self : MonoCamera Cam Mgr Pub Api)
  (newconfig : Config.t) (level : Z) :
  Config.frame_id newconfig = "" ->
  Config.frame_id (resolve_frame_id newconfig) = "camera"
  /\ (forall c,
         result (configure newconfig level self) = Returned c ->
         Config.frame_id c = "camera")
  /\ (forall c,
         In c (applied (calls (configure newconfig level self))) ->
         Config.frame_id c = "camera")
  /\ (forall cname,
         In cname (names (calls (configure newconfig level self))) ->
         cname = "camera")
  /\ (forall ci,
         Header.frame_id
           (CameraInfo.header
              (set_operational_parameters (resolve_frame_id newconfig) ci))
         = "camera")
  /\ (loads (calls (configure newconfig level self)) = [] ->
      forall ci,
        In ci (pushed (calls (configure newconfig level self))) ->
        Header.frame_id (CameraInfo.header ci) = "camera").
Proof.
  intros Hempty.
  assert (Hc : Config.frame_id (resolve_frame_id newconfig) = "camera").
  { unfold resolve_frame_id. rewrite Hempty. reflexivity. }
  split; [exact Hc|].
  destruct (configure_view self newconfig level)
    as (ls & cam & Hs & Happ & _ & Hview).
  destruct (configure_manager_log self newconfig level)
    as (lu & Hlu & Hpushed & Hloads & Hnames & _).
  cbv zeta in Hview.
  set (c := resolve_frame_id newconfig) in *.
  split; [|split; [|split; [|split]]].
  - (* the configuration returned *)
    intros c' Hres.
    assert (Hcaught : exists x, result (configure newconfig level self)
                                = caught c x).
    { destruct Hview as [(e & _ & H & _) | (_ & H & _)]; eauto. }
    destruct Hcaught as [x Hx]. rewrite Hx in Hres.
    destruct x as [|[|]]; cbn in Hres; congruence.
  - (* the configurations handed to the session *)
    intros c' Hin.
    assert (Hfrom : In c' (applied ls)).
    { destruct Hview as [(e & Hcalls & _) | (Hcalls & _)];
        rewrite Hcalls, !applied_app in Hin.
      - destruct (error_line_log (Threw e)) as (_ & _ & _ & Ea & _).
        rewrite Ea, app_nil_r in Hin. exact Hin.
      - destruct (error_line_log
                    (result (updateCameraInfo c (set_cam_ cam self))))
          as (_ & _ & _ & Ea & _).
        destruct (manager_log _
                    (proj1 (updateCameraInfo_log c (set_cam_ cam self))))
          as (Ua & _).
        rewrite Ea, Ua, !app_nil_r in Hin. exact Hin. }
    rewrite (Happ _ Hfrom). exact Hc.
  - (* the camera names *)
    intros cname Hin. rewrite Hnames in Hin.
    destruct Hlu as [-> | [cam' ->]]; [contradiction|].
    apply (proj1 (updateCameraInfo_without_load c (set_cam_ cam' self)))
      in Hin.
    congruence.
  - (* what line 134 writes *)
    intros ci. exact Hc.
  - (* the records *)
    intros Hnoload ci Hin. rewrite Hloads in Hnoload. rewrite Hpushed in Hin.
    destruct Hlu as [-> | [cam' ->]]; [contradiction|].
    destruct (proj2 (updateCameraInfo_without_load c (set_cam_ cam' self))
                Hnoload ci Hin) as (ci0 & _ & ->).
    rewrite frame_id_pushed. exact Hc.
Qed.

(** When no call of the reconfiguration throws, the session does receive one
    configuration and the manager one record: with an empty requested frame
    id the session's is "camera", and so is the record's when nothing was
    loaded. *)
Lemma configure_defaults_frame_id_reached (self : MonoCamera Cam Mgr Pub Api)
  (newconfig : Config.t) (level : Z) :
  Config.frame_id newconfig = "" ->
  (forall ev, In ev (calls (configure newconfig level self)) ->
              raised ev = None) ->
  map Config.frame_id (applied (calls (configure newconfig level self)))
  = ["camera"]
  /\ exists ci,
      pushed (calls (configure newconfig level self)) = [ci]
      /\ (loads (calls (configure newconfig level self)) = [] ->
          Header.frame_id (CameraInfo.header ci) = "camera").
Proof.
  intros Hempty Hquiet.
  destruct (configure_defaults_frame_id self newconfig level Hempty)
    as (Hc & _ & _ & _ & _ & Hrecord).
  destruct (configure_outcome self newconfig level) as (_ & _ & _ & Hdone).
  cbv zeta in Hdone.
  destruct (Hdone Hquiet) as (_ & _ & Happlied & ci & Hpushed).
  rewrite Happlied. cbn. rewrite Hc. split; [reflexivity|].
  exists ci. split; [exact Hpushed|].
  intros Hnoload. apply Hrecord; [exact Hnoload|].
  rewrite Hpushed. left. reflexivity.
Qed.

(** *** The stored URL *)

Lemma configure_keeps_members (self : MonoCamera Cam Mgr Pub Api)
  (newconfig : Config.t) (level : Z) :
  camera_info_url_ (after (configure newconfig level self))
  = camera_info_url_ self
  /\ ip_ (after (configure newconfig level self)) = ip_ self
  /\ guid_ (after (configure newconfig level self)) = guid_ self.
Proof.
  destruct (configure_view self newconfig level)
    as (ls & cam & _ & _ & _ & Hview).
  cbv zeta in Hview.
  destruct Hview as [(e & _ & _ & -> & _) | (_ & _ & -> & _)].
  - repeat split.
  - destruct (updateCameraInfo_log (resolve_frame_id newconfig)
                (set_cam_ cam self)) as (_ & m & ->).
    repeat split.
Qed.

Lemma MonoCamera_new_url (api : Api) (cam : Cam) (pub : Pub) (mgr : Mgr)
  (clock : Time.t) (param : string -> option string) (initial : Config.t)
  (c : Config.t) :
  result (MonoCamera_new api cam pub mgr clock param initial) = Returned c ->
  camera_info_url_ (after (MonoCamera_new api cam pub mgr clock param initial))
  = param_or param "camera_info_url" "".
Proof.
  unfold MonoCamera_new, bind, on_api, on_pub, on_info_man, read_params,
    member, on_cam.
  cbn.
  destruct (api_start api) as [[[]|e] api']; cbn; [|discriminate].
  destruct (advertiseCamera "image_raw" 1 pub) as [[[]|e] pub']; cbn;
    [|discriminate].
  destruct (new_CameraInfoManager mgr) as [[[]|e] mgr']; cbn; [|discriminate].
  destruct (setCallback cam) as [[[]|e] cam']; cbn; [|discriminate].
  destruct (start (param_or param "ip" "") (param_or param "guid" "") cam')
    as [[[]|e] cam'']; cbn; [|discriminate].
  match goal with
  | |- context [configure initial ?lvl ?s] =>
      pose proof (proj1 (configure_keeps_members s initial lvl)) as Hkeep;
      destruct (configure initial lvl s) as [r s' l]
  end.
  cbn in *. intros _. exact Hkeep.
Qed.

(** What a reconfiguration asks of the manager when the requested URL is not
    the stored one. *)
Lemma configure_new_url (self : MonoCamera Cam Mgr Pub Api)
  (newconfig : Config.t) (level : Z) :
  Config.camera_info_url newconfig <> camera_info_url_ self ->
  ((exists ci0,
       In (GetCameraInfo (Returned ci0))
          (calls (configure newconfig level self)))
   -> names (calls (configure newconfig level self))
      = [Config.frame_id (resolve_frame_id newconfig)])
  /\ (In (ValidateURL (Config.camera_info_url newconfig) (Returned true))
         (calls (configure newconfig level self))
      -> loads (calls (configure newconfig level self))
         = [Config.camera_info_url newconfig]).
Proof.
  intros Hurl. rewrite <- (resolve_frame_id_url newconfig) in *.
  destruct (configure_manager_log self newconfig level)
    as (lu & Hlu & _ & -> & -> & _ & Hin).
  destruct Hlu as [-> | [cam ->]].
  - split.
    + intros [ci0 H]. apply Hin in H; [contradiction | reflexivity].
    + intros H. apply Hin in H; [contradiction | reflexivity].
  - destruct (updateCameraInfo_new_url (resolve_frame_id newconfig)
                (set_cam_ cam self) Hurl) as (Hname & _ & Hload).
    split.
    + intros [ci0 H]. apply Hin in H; [| reflexivity]. apply Hname. eauto.
    + intros H. apply Hin in H; [| reflexivity]. apply Hload, H.
Qed.

(** C10. [camera_info_url_] is set by the constructor, from the parameter
    server, and neither [configure] nor [updateCameraInfo] changes it. So
    when a reconfiguration asks for a URL other than the stored one, that
    reconfiguration and the next one with the same URL both give the manager
    the camera name as soon as it has given its record, and both have the URL
    loaded as soon as it is found valid. *)
Theorem camera_info_url_is_fixed_at_construction
  (self : MonoCamera Cam Mgr Pub Api) (newconfig : Config.t)
  (level level' : Z) :
  let r := configure newconfig level self in
  let r' := configure newconfig level' (after r) in
  (forall (api : Api) (cam : Cam) (pub : Pub) (mgr : Mgr) clock param
          initial c,
      result (MonoCamera_new api cam pub mgr clock param initial)
      = Returned c ->
      camera_info_url_
        (after (MonoCamera_new api cam pub mgr clock param initial))
      = param_or param "camera_info_url" "")
  /\ (forall config,
         camera_info_url_ (after (updateCameraInfo config self))
         = camera_info_url_ self)
  /\ camera_info_url_ (after r) = camera_info_url_ self
  /\ camera_info_url_ (after r') = camera_info_url_ self
  /\ (Config.camera_info_url newconfig <> camera_info_url_ self ->
      forall x,
        x = r \/ x = r' ->
        ((exists ci0, In (GetCameraInfo (Returned ci0)) (calls x))
         -> names (calls x) = [Config.frame_id (resolve_frame_id newconfig)])
        /\ (In (ValidateURL (Config.camera_info_url newconfig)
                            (Returned true)) (calls x)
            -> loads (calls x) = [Config.camera_info_url newconfig])).
Proof.
  cbv zeta.
  pose proof (proj1 (configure_keeps_members self newconfig level)) as Hfirst.
  pose proof (proj1 (configure_keeps_members
                       (after (configure newconfig level self))
                       newconfig level')) as Hsecond.
  split; [intros; eapply MonoCamera_new_url; eassumption|].
  split.
  { intros config.
    destruct (updateCameraInfo_log config self) as (_ & m & ->). reflexivity. }
  split; [exact Hfirst|].
  split; [congruence|].
  intros Hurl x [-> | ->].
  - apply configure_new_url. exact Hurl.
  - apply configure_new_url. rewrite Hfirst. exact Hurl.
Qed.

(** *** The record and its flag, with and without a load *)

(** Nothing was loaded: the record given to the manager is the one it gave,
    with the requested frame id, resolution, binning and ROI; its size was
    just set to the requested resolution, so the flag is set whatever size
    the manager's record had. *)
Lemma updateCameraInfo_flag_without_load (config : Config.t)
  (self : MonoCamera Cam Mgr Pub Api) :
  loads (calls (updateCameraInfo config self)) = [] ->
  forall ci,
    In ci (pushed (calls (updateCameraInfo config self))) ->
    RegionOfInterest.do_rectify (CameraInfo.roi ci) = true
    /\ Header.frame_id (CameraInfo.header ci) = Config.frame_id config
    /\ CameraInfo.height ci = to_uint32 (Config.height config)
    /\ CameraInfo.width ci = to_uint32 (Config.width config)
    /\ CameraInfo.binning_x ci = to_uint32 (Config.binning_x config)
    /\ CameraInfo.binning_y ci = to_uint32 (Config.binning_y config)
    /\ RegionOfInterest.x_offset (CameraInfo.roi ci)
       = to_uint32 (Config.roi_offset_x config)
    /\ RegionOfInterest.y_offset (CameraInfo.roi ci)
       = to_uint32 (Config.roi_offset_y config)
    /\ RegionOfInterest.height (CameraInfo.roi ci)
       = to_uint32 (Config.roi_height config)
    /\ RegionOfInterest.width (CameraInfo.roi ci)
       = to_uint32 (Config.roi_width config).
Proof.
  intros Hnoload ci Hin.
  destruct (proj2 (updateCameraInfo_without_load config self) Hnoload ci Hin)
    as (ci0 & _ & ->).
  split; [|repeat split].
  rewrite do_rectify_set_do_rectify, resolution_matches_after_set.
  apply orb_true_r.
Qed.

(** A load was made and the manager gave its record again: that record goes
    back to the manager with nothing changed but the flag, which compares its
    size with the requested ROI and resolution. *)
Lemma updateCameraInfo_after_load (config : Config.t)
  (self : MonoCamera Cam Mgr Pub Api) (loaded : bool) :
  In (LoadCameraInfo (Config.camera_info_url config) (Returned loaded))
     (calls (updateCameraInfo config self)) ->
  forall ci,
    In ci (pushed (calls (updateCameraInfo config self))) ->
    exists before ci1 a,
      calls (updateCameraInfo config self)
      = before ++ [GetCameraInfo (Returned ci1); SetCameraInfo ci a]
      /\ ci = set_do_rectify config ci1
      /\ RegionOfInterest.do_rectify (CameraInfo.roi ci)
         = roiMatchesCalibration config ci1
           || resolutionMatchesCalibration config ci1.
Proof.
  intros Hload ci Hin.
  by_paths config self; each_entry Hload; each_entry Hin.
  match goal with
  | |- exists before _ _, ?log = _ /\ _ =>
      exists (removelast (removelast log))
  end.
  do 2 eexists. cbn. repeat split.
Qed.

End Reconfigure.

(* ================================================================== *)
(** * The node on the bench *)
(* ================================================================== *)

(** C1, where the code departs from it. The manager holds a 640x480
    calibration, the requested URL is the stored one, and the request is for
    a 100x100 image with a 50x50 ROI: the calibration's size matches neither,
    yet the record given back to the manager has the flag set. *)
Theorem do_rectify_set_without_a_match :
  let self := Bench.bench [] Bench.vga_calibration 0 "" in
  let newconfig := Config.Make "camera" 100 100 1 1 0 0 50 50 "" in
  let r := configure newconfig 0 self in
  (CameraInfo.height (Bench.held_by self),
   CameraInfo.width (Bench.held_by self)) = (480, 640)
  /\ roiMatchesCalibration newconfig (Bench.held_by self) = false
  /\ resolutionMatchesCalibration newconfig (Bench.held_by self) = false
  /\ result r = Returned newconfig
  /\ loads (calls r) = []
  /\ map (fun ci => RegionOfInterest.do_rectify (CameraInfo.roi ci))
         (pushed (calls r)) = [true]
  /\ RegionOfInterest.do_rectify (CameraInfo.roi (Bench.held_by (after r)))
     = true.
Proof. vm_compute. repeat split. Qed.

(** C2, where the code departs from it. The requested URL is new and valid:
    the reconfiguration completes, no call throws, and the record the manager
    ends up with is the calibration as loaded, with none of the requested
    frame id, resolution, binning and ROI. *)
Theorem reload_discards_operational_parameters :
  let self := Bench.bench [] CameraInfo.empty 0 "" in
  let newconfig := Config.Make "camera" 100 100 2 2 10 20 50 50 Bench.vga_url in
  let r := configure newconfig 0 self in
  let stored := Bench.held_by (after r) in
  result r = Returned newconfig
  /\ forallb (fun ev => match raised ev with None => true | Some _ => false end)
             (calls r) = true
  /\ loads (calls r) = [Bench.vga_url]
  /\ pushed (calls r) = [stored]
  /\ stored = Bench.vga_calibration
  /\ Header.frame_id (CameraInfo.header stored) = ""
  /\ (CameraInfo.height stored, CameraInfo.width stored) = (480, 640)
  /\ (CameraInfo.binning_x stored, CameraInfo.binning_y stored) = (0, 0)
  /\ CameraInfo.roi stored = RegionOfInterest.empty.
Proof. vm_compute. repeat split. Qed.

(** C9, where the code departs from it. The requested frame id is empty and
    the requested URL is new and valid: the reconfiguration completes, no
    call throws, the session is configured with frame id "camera" and the
    manager is given "camera" as camera name, but the one record given to the
    manager, which it ends up with, is the calibration as loaded, whose frame
    id is not "camera". *)
Theorem empty_frame_id_lost_on_reload :
  let self := Bench.bench [] CameraInfo.empty 0 "" in
  let newconfig := Config.Make "" 480 640 1 1 0 0 480 640 Bench.vga_url in
  let r := configure newconfig 0 self in
  let stored := Bench.held_by (after r) in
  Config.frame_id newconfig = ""
  /\ thrown_by (result r) = None
  /\ forallb (fun ev => match raised ev with None => true | Some _ => false end)
             (calls r) = true
  /\ map Config.frame_id (applied (calls r)) = ["camera"]
  /\ names (calls r) = ["camera"]
  /\ loads (calls r) = [Bench.vga_url]
  /\ pushed (calls r) = [stored]
  /\ Header.frame_id (CameraInfo.header stored) = ""
  /\ Header.frame_id (CameraInfo.header stored) <> "camera".
Proof. vm_compute. repeat split. intros H. discriminate H. Qed.

(** C5 as stated fails: the session throws an object that is not a
    [std::exception] from [updateConfig]; it leaves [configure], and nothing
    is logged. *)
Lemma configure_propagates_other_objects :
  let self := Bench.bench [Some NonStdThrown] CameraInfo.empty 0 "" in
  let newconfig := Config.Make "camera" 480 640 1 1 0 0 480 640 "" in
  let r := configure newconfig 0 self in
  calls r = [CamUpdateConfig newconfig (Threw NonStdThrown)]
  /\ result r = Threw NonStdThrown
  /\ logged Error (calls r) = []
  /\ ~ (exists c, result r = Returned c).
Proof.
  vm_compute. repeat split. intros [c Hc]. discriminate Hc.
Qed.

(** Closing a membership goal on a log that computes. *)
Ltac in_log := vm_compute; repeat (first [left; reflexivity | right]).


(** C4 on the bench: the requested URL has a scheme the manager does not
    know. *)
Lemma configure_invalid_url_bench :
  let self := Bench.bench [] Bench.vga_calibration 0 "" in
  let newconfig :=
    Config.Make "camera" 480 640 1 1 0 0 480 640 "ftp://calib/vga.yaml" in
  let r := configure newconfig 0 self in
  Config.camera_info_url newconfig <> camera_info_url_ self
  /\ loads (calls r) = []
  /\ logged Warn (calls r)
     = ["Camera info URL not valid: ftp://calib/vga.yaml"]
  /\ exists ci0 ci a,
      In (GetCameraInfo (Returned ci0)) (calls r)
      /\ In (SetCameraInfo ci a) (calls r)
      /\ pushed (calls r) = [ci]
      /\ CameraInfo.calibration ci = CameraInfo.calibration ci0
      /\ (forall stored,
             a = Returned stored ->
             result r = Returned (resolve_frame_id newconfig)
             /\ logged Error (calls r) = []).
Proof.
  apply (configure_invalid_url_keeps_calibration
           (Bench.bench [] Bench.vga_calibration 0 "")
           (Config.Make "camera" 480 640 1 1 0 0 480 640
                        "ftp://calib/vga.yaml") 0).
  in_log.
Defined.

(** C5 on the bench: [start] throws a [std::exception] while the session is
    being restarted. The error is logged and [configure] returns, the session
    stays stopped, and the next reconfiguration goes through. *)
Lemma configure_absorbs_bench :
  let self :=
    Bench.bench [None; Some (StdException "no camera")] Bench.vga_calibration
                0 "" in
  let newconfig := Config.Make "" 480 640 1 1 0 0 480 640 "" in
  let r := configure newconfig 1 self in
  let r' := configure newconfig 0 (after r) in
  (result r = Returned (resolve_frame_id newconfig)
   /\ logged Error (calls r)
      = ["Error reconfiguring mono_camera node : no camera"])
  /\ ScriptedSession.opened (cam_ (after r)) = None
  /\ (result r' = Returned (resolve_frame_id newconfig)
      /\ logged Error (calls r') = []
      /\ applied (calls r') = [resolve_frame_id newconfig]
      /\ exists ci, pushed (calls r') = [ci]).
Proof.
  cbv zeta.
  destruct (configure_absorbs_std_exceptions
              (Bench.bench [None; Some (StdException "no camera")]
                           Bench.vga_calibration 0 "")
              (Config.Make "" 480 640 1 1 0 0 480 640 "") 1
              (Config.Make "" 480 640 1 1 0 0 480 640 "") 0)
    as (_ & Hcaught & _ & _ & Hnext).
  split; [|split].
  - apply (Hcaught (CamStart "10.0.0.2" "" (Threw (StdException "no camera")))
                   "no camera"); [in_log | reflexivity].
  - reflexivity.
  - apply Hnext. intros ev Hin. vm_compute in Hin.
    repeat (destruct Hin as [<- | Hin]; [reflexivity|]). contradiction.
Defined.



(** C10 on the bench: the node started with no calibration URL; the same new
    URL is requested twice, and is loaded twice. *)
Lemma camera_info_url_bench :
  let self := Bench.bench [] CameraInfo.empty 0 "" in
  let newconfig :=
    Config.Make "camera" 480 640 1 1 0 0 480 640 Bench.vga_url in
  let r := configure newconfig 0 self in
  let r' := configure newconfig 0 (after r) in
  camera_info_url_ (after r') = ""
  /\ (names (calls r) = ["camera"] /\ loads (calls r) = [Bench.vga_url])
  /\ (names (calls r') = ["camera"] /\ loads (calls r') = [Bench.vga_url]).
Proof.
  cbv zeta.
  destruct (camera_info_url_is_fixed_at_construction
              (Bench.bench [] CameraInfo.empty 0 "")
              (Config.Make "camera" 480 640 1 1 0 0 480 640 Bench.vga_url)
              0 0)
    as (_ & _ & _ & Hsecond & Hagain).
  assert (Hurl : Bench.vga_url <> "") by discriminate.
  split; [exact Hsecond|].
  split.
  - destruct (Hagain Hurl _ (or_introl eq_refl)) as [Hname Hload].
    split; [apply Hname; eexists; in_log | apply Hload; in_log].
  - destruct (Hagain Hurl _ (or_intror eq_refl)) as [Hname Hload].
    split; [apply Hname; eexists; in_log | apply Hload; in_log].
Defined.

(* ================================================================== *)
(** * Further properties of the node *)
(* ================================================================== *)

(** ** The call log, by kind of call *)

Section CallKinds.

Context {Api : Type} {vimba : VimbaApi Api}.

(** Keeping the session calls of a log of session calls keeps it all;
    keeping them from a log without any leaves nothing. *)
Lemma filter_session_all (log : list Event) :
  forallb is_session_call log = true -> filter is_session_call log = log.
Proof.
  induction log as [|ev log IH]; cbn; [reflexivity|].
  intros H. apply andb_prop in H. destruct H as [Hev Hlog].
  rewrite Hev, (IH Hlog). reflexivity.
Qed.

Lemma filter_session_none (log : list Event) :
  (forall ev, In ev log -> is_session_call ev = false) ->
  filter is_session_call log = [].
Proof.
  induction log as [|ev log IH]; cbn; [reflexivity|].
  intros H. rewrite (H ev (or_introl eq_refl)). apply IH.
  intros ev' Hin. apply H. right. exact Hin.
Qed.

(** A log of session calls, manager calls and console lines holds no
    conversion and no publication. *)
Lemma quiet_log (log : list Event) :
  (forall ev, In ev log ->
              is_session_call ev = true \/ is_manager_call ev = true
              \/ exists level msg, ev = RosLog level msg) ->
  publications log = [] /\ conversions log = O.
Proof.
  induction log as [|ev log IH]; cbn; [auto|].
  intros H.
  destruct IH as [Hp Hc]; [intros ev' Hin; apply H; right; exact Hin|].
  destruct (H ev (or_introl eq_refl)) as [Hk | [Hk | (level & msg & ->)]];
    [destruct ev; try discriminate Hk; auto ..| auto].
Qed.

(** Whether some entry of a log threw. *)
Lemma raised_or_not (log : list Event) :
  (exists ev e, In ev log /\ raised ev = Some e)
  \/ (forall ev, In ev log -> raised ev = None).
Proof.
  induction log as [|ev log [(ev' & e & Hin & He) | Hnone]].
  - right. intros ev [].
  - left. exists ev', e. split; [right; exact Hin | exact He].
  - destruct (raised ev) as [e|] eqn:He.
    + left. exists ev, e. split; [left; reflexivity | exact He].
    + right. intros ev' [<- | Hin]; auto.
Qed.

End CallKinds.

(** ** The session part of a reconfiguration *)

Section Session.

Context {Cam Mgr Pub Api : Type}.
Context {session : CameraSession Cam} {manager : CameraInfoManager Mgr}.
Context {publisher : CameraPublisher Pub} {vimba : VimbaApi Api}.

(** RECONFIGURE_STOP is one of the bits of RECONFIGURE_CLOSE: a level that
    passes the second test of [configure] has passed the first. *)
Lemma stop_level_is_close_level (level : Z) :
  Z.land level SensorLevels.RECONFIGURE_STOP <> 0 ->
  Z.land level SensorLevels.RECONFIGURE_CLOSE <> 0.
Proof.
  unfold SensorLevels.RECONFIGURE_STOP, SensorLevels.RECONFIGURE_CLOSE.
  intros Hstop Hclose. apply Hstop.
  change 1 with (Z.land 3 1). rewrite Z.land_assoc, Hclose. reflexivity.
Qed.

Lemma close_level_mod_4 (level : Z) :
  Z.land level SensorLevels.RECONFIGURE_CLOSE = level mod 4.
Proof.
  unfold SensorLevels.RECONFIGURE_CLOSE.
  change 3 with (Z.ones 2). rewrite Z.land_ones by lia. reflexivity.
Qed.

(** The runs of the session part. *)
Lemma apply_to_session_cases (self : MonoCamera Cam Mgr Pub Api)
  (c : Config.t) (level : Z) :
  (Z.land level SensorLevels.RECONFIGURE_CLOSE = 0
   /\ exists a cam,
       apply_to_session c level self
       = Build_run a (set_cam_ cam self) [CamUpdateConfig c a])
  \/ (Z.land level SensorLevels.RECONFIGURE_CLOSE <> 0
      /\ ((exists e cam,
              apply_to_session c level self
              = Build_run (Threw e) (set_cam_ cam self) [CamStop (Threw e)])
          \/ (exists e cam,
                 apply_to_session c level self
                 = Build_run (Threw e) (set_cam_ cam self)
                     [CamStop (Returned tt);
                      CamStart (ip_ self) (guid_ self) (Threw e)])
          \/ (exists a cam,
                 apply_to_session c level self
                 = Build_run a (set_cam_ cam self)
                     [CamStop (Returned tt);
                      CamStart (ip_ self) (guid_ self) (Returned tt);
                      CamUpdateConfig c a]))).
Proof.
  destruct (Z.eqb (Z.land level SensorLevels.RECONFIGURE_CLOSE) 0) eqn:Hclose.
  - apply Z.eqb_eq in Hclose. left. split; [exact Hclose|].
    assert (Hstop : Z.eqb (Z.land level SensorLevels.RECONFIGURE_STOP) 0
                    = true).
    { apply Z.eqb_eq.
      destruct (Z.eq_dec (Z.land level SensorLevels.RECONFIGURE_STOP) 0)
        as [H|H]; [exact H|].
      apply stop_level_is_close_level in H. contradiction. }
    unfold apply_to_session. rewrite Hstop.
    apply Z.eqb_eq in Hclose. rewrite Hclose. cbn. unfold on_cam.
    destruct (updateConfig c (cam_ self)) as [a cam].
    exists a, cam. reflexivity.
  - apply Z.eqb_neq in Hclose. right. split; [exact Hclose|].
    apply Z.eqb_neq in Hclose.
    unfold apply_to_session. rewrite Hclose. cbn.
    unfold restart_and_update, bind, member, on_cam. cbn.
    destruct (stop (cam_ self)) as [[[]|e] cam1]; cbn;
      [|left; exists e, cam1; reflexivity].
    destruct (start (ip_ self) (guid_ self) cam1) as [[[]|e] cam2]; cbn;
      [|right; left; exists e, cam2; reflexivity].
    destruct (updateConfig c cam2) as [a cam3]. cbn.
    right; right. exists a, cam3. destruct a; reflexivity.
Qed.

(** The session calls of a reconfiguration are those of its session part. *)
Lemma configure_session_log (self : MonoCamera Cam Mgr Pub Api)
  (newconfig : Config.t) (level : Z) :
  filter is_session_call (calls (configure newconfig level self))
  = calls (apply_to_session (resolve_frame_id newconfig) level self).
Proof.
  rewrite configure_run. cbv zeta. cbn [calls].
  rewrite configure_try_run. cbv zeta.
  set (c := resolve_frame_id newconfig).
  destruct (apply_to_session_run self c level) as (Hs & [cam Hcam] & _).
  destruct (apply_to_session c level self) as [[[]|e] s ls];
    cbn [result after calls] in *; subst s.
  - destruct (manager_log _
                (proj1 (updateCameraInfo_log c (set_cam_ cam self))))
      as (_ & _ & Hu).
    destruct (error_line_log
                (result (updateCameraInfo c (set_cam_ cam self))))
      as (_ & _ & _ & _ & _ & _ & He).
    rewrite !filter_app, (filter_session_all _ Hs).
    rewrite (filter_session_none _ Hu).
    rewrite filter_session_none; [rewrite !app_nil_r; reflexivity|].
    intros ev Hin. apply He in Hin. apply Hin.
  - destruct (error_line_log (Threw e)) as (_ & _ & _ & _ & _ & _ & He).
    rewrite filter_app, (filter_session_all _ Hs).
    rewrite filter_session_none; [rewrite app_nil_r; reflexivity|].
    intros ev Hin. apply He in Hin. apply Hin.
Qed.

(** X1. A reconfiguration stops the camera session exactly when the level
    has one of its two low bits set, that is, when it is not a multiple of
    four; the test for RECONFIGURE_STOP adds no level of its own. *)
Theorem configure_stops_session_iff (self : MonoCamera Cam Mgr Pub Api)
  (newconfig : Config.t) (level : Z) :
  ((exists a, In (CamStop a) (calls (configure newconfig level self)))
   <-> Z.land level SensorLevels.RECONFIGURE_CLOSE <> 0)
  /\ ((exists a, In (CamStop a) (calls (configure newconfig level self)))
      <-> level mod 4 <> 0)
  /\ (Z.land level SensorLevels.RECONFIGURE_STOP <> 0 ->
      exists a, In (CamStop a) (calls (configure newconfig level self))).
Proof.
  assert (Hiff : (exists a, In (CamStop a)
                               (calls (configure newconfig level self)))
                 <-> Z.land level SensorLevels.RECONFIGURE_CLOSE <> 0).
  { assert (Hlog : forall a,
               In (CamStop a) (calls (configure newconfig level self))
               <-> In (CamStop a)
                      (calls (apply_to_session (resolve_frame_id newconfig)
                                               level self))).
    { intros a. rewrite <- configure_session_log, filter_In. cbn. tauto. }
    destruct (apply_to_session_cases self (resolve_frame_id newconfig) level)
      as [(Hz & a & cam & Hrun)
         | (Hnz & [(e & cam & Hrun) | [(e & cam & Hrun) | (a & cam & Hrun)]])].
    - split; [|contradiction].
      intros [a' Hin]. apply Hlog in Hin. rewrite Hrun in Hin.
      cbn in Hin. destruct Hin as [Hin | []]. discriminate Hin.
    - split; [auto|]. intros _. exists (Threw e). apply Hlog.
      rewrite Hrun. cbn. auto.
    - split; [auto|]. intros _. exists (Returned tt). apply Hlog.
      rewrite Hrun. cbn. auto.
    - split; [auto|]. intros _. exists (Returned tt). apply Hlog.
      rewrite Hrun. cbn. auto. }
  split; [exact Hiff|]. split.
  - rewrite <- close_level_mod_4. exact Hiff.
  - intros Hstop. apply Hiff, stop_level_is_close_level, Hstop.
Qed.

(** X2. The calls a reconfiguration makes to the camera session are, in this
    order, either the new configuration alone, or stop, start on the stored
    address and identifier, and the new configuration with its frame id
    resolved; each is made only if the one before returned. *)
Theorem configure_session_calls (self : MonoCamera Cam Mgr Pub Api)
  (newconfig : Config.t) (level : Z) :
  let c := resolve_frame_id newconfig in
  let log := filter is_session_call (calls (configure newconfig level self)) in
  (exists a, log = [CamUpdateConfig c a])
  \/ (exists e, log = [CamStop (Threw e)])
  \/ (exists e,
         log = [CamStop (Returned tt);
                CamStart (ip_ self) (guid_ self) (Threw e)])
  \/ (exists a,
         log = [CamStop (Returned tt);
                CamStart (ip_ self) (guid_ self) (Returned tt);
                CamUpdateConfig c a]).
Proof.
  cbv zeta. rewrite configure_session_log.
  destruct (apply_to_session_cases self (resolve_frame_id newconfig) level)
    as [(_ & a & cam & ->)
       | (_ & [(e & cam & ->) | [(e & cam & ->) | (a & cam & ->)]])];
    cbn; eauto 6.
Qed.

(** X3. When a call to the session throws, the reconfiguration asks nothing
    of the calibration manager: the manager and its record are as they
    were, and no warning is written. *)
Theorem configure_session_failure_skips_manager
  (self : MonoCamera Cam Mgr Pub Api) (newconfig : Config.t) (level : Z)
  (ev : Event) (e : thrown) :
  In ev (calls (configure newconfig level self)) ->
  is_session_call ev = true ->
  raised ev = Some e ->
  (forall ev', In ev' (calls (configure newconfig level self)) ->
               is_manager_call ev' = false)
  /\ pushed (calls (configure newconfig level self)) = []
  /\ logged Warn (calls (configure newconfig level self)) = []
  /\ info_man_ (after (configure newconfig level self)) = info_man_ self.
Proof.
  intros Hin Hsession Hraised.
  destruct (configure_view self newconfig level)
    as (ls & cam & Hs & _ & _ & Hview).
  cbv zeta in Hview.
  destruct (session_log _ Hs) as (Hp & _ & _ & Hg & Hkind).
  destruct Hview as [(e' & Hcalls & _ & Hafter & _)
                    | (Hcalls & _ & _ & _ & Hquiet)].
  - destruct (error_line_log (Threw e')) as (Ep & _ & _ & _ & Eg & _ & Ek).
    rewrite Hcalls, Hafter, pushed_app, logged_app, Hp, Hg, Ep, Eg.
    repeat split.
    intros ev' Hin'. apply in_app_iff in Hin'. destruct Hin' as [H | H].
    + apply session_call_not_manager_call, Hkind, H.
    + apply Ek, H.
  - exfalso. rewrite Hcalls in Hin. rewrite !in_app_iff in Hin.
    destruct Hin as [H | [H | H]].
    + rewrite (Hquiet _ H) in Hraised. discriminate.
    + destruct (manager_log _
                  (proj1 (updateCameraInfo_log (resolve_frame_id newconfig)
                                               (set_cam_ cam self))))
        as (_ & _ & Hu).
      rewrite (Hu _ H) in Hsession. discriminate.
    + apply (error_line_log _) in H. destruct H as [_ H].
      rewrite H in Hsession. discriminate.
Qed.

End Session.

(** ** More on reconfiguration *)

(** Reasoning by the ways through [updateCameraInfo]. *)
Ltac along_paths config self :=
  let Hp := fresh "Hpath" in
  let u := fresh "u" in
  pose proof (updateCameraInfo_runs config self) as Hp;
  set (u := updateCameraInfo config self) in *; clearbody u;
  destruct Hp; subst; cbn [result after calls] in *.

Ltac entry H :=
  cbn in H;
  repeat (match type of H with _ \/ _ => destruct H as [H | H] end);
  try contradiction; try discriminate H; try (inversion H; subst).

Section Reconfiguration.

Context {Cam Mgr Pub Api : Type}.
Context {session : CameraSession Cam} {manager : CameraInfoManager Mgr}.
Context {publisher : CameraPublisher Pub} {vimba : VimbaApi Api}.

(** Every call of a reconfiguration goes to the session or to the manager,
    or is a console line. *)
Lemma configure_call_kinds (self : MonoCamera Cam Mgr Pub Api)
  (newconfig : Config.t) (level : Z) (ev : Event) :
  In ev (calls (configure newconfig level self)) ->
  is_session_call ev = true \/ is_manager_call ev = true
  \/ exists l msg, ev = RosLog l msg.
Proof.
  destruct (configure_view self newconfig level)
    as (ls & cam & Hs & _ & _ & Hview).
  cbv zeta in Hview.
  destruct (session_log _ Hs) as (_ & _ & _ & _ & Hkind).
  assert (Hline : forall x, In ev (error_line x) ->
                            exists l msg, ev = RosLog l msg).
  { intros [|[what|]]; cbn; try contradiction.
    intros [<- | []]. eauto. }
  destruct Hview as [(e & -> & _) | (-> & _)]; rewrite !in_app_iff.
  - intros [H | H]; [left; apply Hkind, H | right; right; eapply Hline, H].
  - intros [H | [H | H]];
      [left; apply Hkind, H | | right; right; eapply Hline, H].
    destruct (updateCameraInfo_log (resolve_frame_id newconfig)
                (set_cam_ cam self)) as [Hu _].
    rewrite forallb_forall in Hu. specialize (Hu _ H).
    apply orb_prop in Hu. destruct Hu as [Hu | Hu]; [auto|].
    right; right. destruct ev; try discriminate Hu. eauto.
Qed.

(** X4. A reconfiguration never converts a frame and never publishes, and
    it leaves the publisher, the API, the clock and the stored address and
    identifier of the camera as they were. *)
Theorem configure_leaves_publisher_alone (self : MonoCamera Cam Mgr Pub Api)
  (newconfig : Config.t) (level : Z) :
  publications (calls (configure newconfig level self)) = []
  /\ conversions (calls (configure newconfig level self)) = O
  /\ pub_ (after (configure newconfig level self)) = pub_ self
  /\ api_ (after (configure newconfig level self)) = api_ self
  /\ ros_clock (after (configure newconfig level self)) = ros_clock self
  /\ ip_ (after (configure newconfig level self)) = ip_ self
  /\ guid_ (after (configure newconfig level self)) = guid_ self.
Proof.
  destruct (quiet_log (calls (configure newconfig level self))
              (configure_call_kinds self newconfig level)) as [Hp Hc].
  split; [exact Hp|]. split; [exact Hc|].
  destruct (configure_view self newconfig level)
    as (ls & cam & _ & _ & _ & Hview).
  cbv zeta in Hview.
  destruct Hview as [(e & _ & _ & -> & _) | (_ & _ & -> & _)].
  - repeat split.
  - destruct (updateCameraInfo_log (resolve_frame_id newconfig)
                (set_cam_ cam self)) as (_ & m & ->).
    repeat split.
Qed.

(** X6. [configure] writes an error line exactly when one of its calls threw
    a [std::exception], and never more than one. *)
Theorem configure_error_line_iff (self : MonoCamera Cam Mgr Pub Api)
  (newconfig : Config.t) (level : Z) :
  (logged Error (calls (configure newconfig level self)) <> []
   <-> exists ev what,
         In ev (calls (configure newconfig level self))
         /\ raised ev = Some (StdException what))
  /\ (List.length (logged Error (calls (configure newconfig level self)))
      <= 1)%nat.
Proof.
  destruct (configure_outcome self newconfig level)
    as (_ & Hstd & Hother & Hnone).
  destruct (raised_or_not (calls (configure newconfig level self)))
    as [(ev & [what|] & Hin & He) | Hquiet].
  - destruct (Hstd ev what Hin He) as [_ Hline]. rewrite Hline.
    split; [|cbn; lia]. split; [eauto | discriminate].
  - destruct (Hother ev Hin He) as [Hres Hline]. rewrite Hline.
    split; [|cbn; lia]. split; [congruence|].
    intros (ev' & what & Hin' & He').
    destruct (Hstd ev' what Hin' He') as [Hres' _]. congruence.
  - destruct (Hnone Hquiet) as (_ & Hline & _). rewrite Hline.
    split; [|cbn; lia]. split; [congruence|].
    intros (ev' & what & Hin' & He'). rewrite (Hquiet _ Hin') in He'.
    discriminate.
Qed.

(** X7. [configure] writes a warning exactly when the manager was asked to
    validate the requested URL and found it invalid, and never more than
    one. *)
Theorem configure_warns_iff (self : MonoCamera Cam Mgr Pub Api)
  (newconfig : Config.t) (level : Z) :
  (logged Warn (calls (configure newconfig level self)) <> []
   <-> In (ValidateURL (Config.camera_info_url newconfig) (Returned false))
          (calls (configure newconfig level self)))
  /\ (List.length (logged Warn (calls (configure newconfig level self)))
      <= 1)%nat.
Proof.
  rewrite <- (resolve_frame_id_url newconfig).
  destruct (configure_manager_log self newconfig level)
    as (lu & Hlu & _ & _ & _ & -> & Hin).
  rewrite (Hin (ValidateURL
                  (Config.camera_info_url (resolve_frame_id newconfig))
                  (Returned false)) eq_refl).
  destruct Hlu as [-> | [cam ->]]; [cbn; intuition; lia|].
  along_paths (resolve_frame_id newconfig) (set_cam_ cam self); cbn;
    (split; [split; [intros Hw; try congruence; auto 10
                    | intros Hw; entry Hw; discriminate]
            | lia]).
Qed.

(** X8. What the manager answers to [setCameraName] plays no part: once it
    has answered, accepting the name or not, it is asked to validate the
    requested URL; and the name it was given is the resolved frame id. *)
Theorem configure_ignores_name_verdict (self : MonoCamera Cam Mgr Pub Api)
  (newconfig : Config.t) (level : Z) (cname : string) (named : bool) :
  In (SetCameraName cname (Returned named))
     (calls (configure newconfig level self)) ->
  cname = Config.frame_id (resolve_frame_id newconfig)
  /\ Config.camera_info_url newconfig <> camera_info_url_ self
  /\ exists a,
      In (ValidateURL (Config.camera_info_url newconfig) a)
         (calls (configure newconfig level self)).
Proof.
  rewrite <- (resolve_frame_id_url newconfig).
  destruct (configure_manager_log self newconfig level)
    as (lu & Hlu & _ & _ & _ & _ & Hin).
  intros Hname. apply Hin in Hname; [|reflexivity].
  assert (Hback : forall a,
             In (ValidateURL
                   (Config.camera_info_url (resolve_frame_id newconfig)) a)
                lu ->
             In (ValidateURL
                   (Config.camera_info_url (resolve_frame_id newconfig)) a)
                (calls (configure newconfig level self))).
  { intros a Ha. apply Hin; [reflexivity | exact Ha]. }
  destruct Hlu as [-> | [cam ->]]; [contradiction|].
  revert Hname Hback.
  along_paths (resolve_frame_id newconfig) (set_cam_ cam self);
    intros Hname Hback; entry Hname;
    (split; [reflexivity | split; [assumption|]]);
    eexists; apply Hback; cbn; auto 10.
Qed.

(** After a load that returned, [updateCameraInfo] asks the manager for its
    record again and, unless that call throws, gives the record back with
    the flag set anew; it calls nothing else. *)
Lemma updateCameraInfo_load_then_push (config : Config.t)
  (self : MonoCamera Cam Mgr Pub Api) (loaded : bool) :
  In (LoadCameraInfo (Config.camera_info_url config) (Returned loaded))
     (calls (updateCameraInfo config self)) ->
  (exists before e,
      calls (updateCameraInfo config self)
      = before
        ++ [LoadCameraInfo (Config.camera_info_url config) (Returned loaded);
            GetCameraInfo (Threw e)]
      /\ result (updateCameraInfo config self) = Threw e
      /\ pushed (calls (updateCameraInfo config self)) = [])
  \/ (exists before ci1 done,
         calls (updateCameraInfo config self)
         = before
           ++ [LoadCameraInfo (Config.camera_info_url config)
                 (Returned loaded);
               GetCameraInfo (Returned ci1);
               SetCameraInfo (set_do_rectify config ci1) done]
         /\ result (updateCameraInfo config self) = ended done
         /\ pushed (calls (updateCameraInfo config self))
            = [set_do_rectify config ci1]).
Proof.
  intros Hload.
  along_paths config self; entry Hload.
  - left.
    match goal with
    | |- exists before _, ?log = _ /\ _ =>
        exists (removelast (removelast log))
    end.
    eexists. cbn. repeat split.
  - right.
    match goal with
    | |- exists before _ _, ?log = _ /\ _ =>
        exists (removelast (removelast (removelast log)))
    end.
    do 2 eexists. cbn. repeat split.
Qed.

Lemma resolve_frame_id_sizes (newconfig : Config.t) :
  (Config.height (resolve_frame_id newconfig),
   Config.width (resolve_frame_id newconfig),
   Config.roi_height (resolve_frame_id newconfig),
   Config.roi_width (resolve_frame_id newconfig))
  = (Config.height newconfig, Config.width newconfig,
     Config.roi_height newconfig, Config.roi_width newconfig).
Proof. unfold resolve_frame_id. destruct (String.eqb _ _); reflexivity. Qed.

(** X9. Once the manager has loaded from the requested URL, whether it
    reports success or not, the next call of [configure] asks it for its
    record. If that call throws, nothing is given to the manager. Otherwise
    the record it returned is given back in the next call, which is the last
    (an error line follows if it threw a [std::exception]): the record given
    back has the header, size, binning, ROI offsets and size and the
    calibration of the record returned after loading, not the requested
    ones, and its flag is set exactly when the height and width the manager
    returned are the requested ROI height and width, or the requested width
    and height, each converted to [uint32]. *)
Theorem configure_after_load_pushes_loaded_record
  (self : MonoCamera Cam Mgr Pub Api) (newconfig : Config.t) (level : Z)
  (loaded : bool) :
  In (LoadCameraInfo (Config.camera_info_url newconfig) (Returned loaded))
     (calls (configure newconfig level self)) ->
  (exists before e,
      calls (configure newconfig level self)
      = before
        ++ [LoadCameraInfo (Config.camera_info_url newconfig)
              (Returned loaded);
            GetCameraInfo (Threw e)]
        ++ error_line (Threw e)
      /\ pushed (calls (configure newconfig level self)) = [])
  \/ (exists before ci1 ci done,
         calls (configure newconfig level self)
         = before
           ++ [LoadCameraInfo (Config.camera_info_url newconfig)
                 (Returned loaded);
               GetCameraInfo (Returned ci1);
               SetCameraInfo ci done]
           ++ error_line (ended done)
         /\ pushed (calls (configure newconfig level self)) = [ci]
         /\ CameraInfo.header ci = CameraInfo.header ci1
         /\ (CameraInfo.height ci, CameraInfo.width ci)
            = (CameraInfo.height ci1, CameraInfo.width ci1)
         /\ (CameraInfo.binning_x ci, CameraInfo.binning_y ci)
            = (CameraInfo.binning_x ci1, CameraInfo.binning_y ci1)
         /\ (RegionOfInterest.x_offset (CameraInfo.roi ci),
             RegionOfInterest.y_offset (CameraInfo.roi ci),
             RegionOfInterest.height (CameraInfo.roi ci),
             RegionOfInterest.width (CameraInfo.roi ci))
            = (RegionOfInterest.x_offset (CameraInfo.roi ci1),
               RegionOfInterest.y_offset (CameraInfo.roi ci1),
               RegionOfInterest.height (CameraInfo.roi ci1),
               RegionOfInterest.width (CameraInfo.roi ci1))
         /\ CameraInfo.calibration ci = CameraInfo.calibration ci1
         /\ (RegionOfInterest.do_rectify (CameraInfo.roi ci) = true
             <-> (CameraInfo.height ci1
                  = Config.roi_height newconfig mod 2 ^ 32
                  /\ CameraInfo.width ci1
                     = Config.roi_width newconfig mod 2 ^ 32)
                 \/ (CameraInfo.width ci1 = Config.width newconfig mod 2 ^ 32
                     /\ CameraInfo.height ci1
                        = Config.height newconfig mod 2 ^ 32))).
Proof.
  rewrite <- (resolve_frame_id_url newconfig).
  intros Hload.
  destruct (configure_view self newconfig level)
    as (ls & cam & Hs & _ & _ & Hview).
  cbv zeta in Hview.
  destruct (session_log _ Hs) as (Hp & _ & _ & _ & Hsession).
  destruct Hview as [(e & Hcalls & _) | (Hcalls & _)];
    rewrite Hcalls in Hload |- *.
  - (* the session part threw: nothing was loaded *)
    exfalso. apply in_app_iff in Hload. destruct Hload as [Hload | Hload].
    + apply Hsession in Hload. discriminate Hload.
    + destruct (error_line_log (Threw e)) as (_ & _ & _ & _ & _ & _ & Hline).
      apply Hline in Hload. destruct Hload as [Hload _]. discriminate Hload.
  - set (c := resolve_frame_id newconfig) in *.
    set (u := updateCameraInfo c (set_cam_ cam self)) in *.
    destruct (error_line_log (result u)) as (Ep & _ & _ & _ & _ & _ & Hline).
    assert (Hload' : In (LoadCameraInfo (Config.camera_info_url c)
                           (Returned loaded)) (calls u)).
    { rewrite !in_app_iff in Hload. destruct Hload as [H | [H | H]].
      - apply Hsession in H. discriminate H.
      - exact H.
      - apply Hline in H. destruct H as [H _]. discriminate H. }
    rewrite !pushed_app, Hp, Ep, app_nil_r. cbn [app].
    destruct (updateCameraInfo_load_then_push c (set_cam_ cam self) loaded
                Hload')
      as [(before & e & Hu & Hres & Hnone)
         | (before & ci1 & done & Hu & Hres & Hone)];
      fold u in Hu, Hres, Hnone || fold u in Hu, Hres, Hone.
    + left. exists (ls ++ before), e.
      split; [rewrite Hu, Hres, <- !app_assoc; reflexivity | exact Hnone].
    + right. exists (ls ++ before), ci1, (set_do_rectify c ci1), done.
      split; [rewrite Hu, Hres, <- !app_assoc; reflexivity|].
      split; [exact Hone|].
      do 5 (split; [destruct ci1 as [h ht w dm d k r p bx by_ roi];
                    destruct roi; reflexivity|]).
      rewrite do_rectify_set_do_rectify.
      unfold roiMatchesCalibration, resolutionMatchesCalibration, to_uint32.
      pose proof (resolve_frame_id_sizes newconfig) as Hsizes.
      fold c in Hsizes. inversion Hsizes as [[Hh Hw Hrh Hrw]].
      rewrite Hh, Hw, Hrh, Hrw.
      rewrite orb_true_iff, !andb_true_iff, !Z.eqb_eq. reflexivity.
Qed.

(** X10. When nothing is loaded, every record given to the manager carries
    the resolved frame id and the requested resolution, binning and ROI, each
    number converted to [uint32], and has the flag set. *)
Theorem configure_without_load_pushes_request
  (self : MonoCamera Cam Mgr Pub Api) (newconfig : Config.t) (level : Z)
  (ci : CameraInfo.t) :
  loads (calls (configure newconfig level self)) = [] ->
  In ci (pushed (calls (configure newconfig level self))) ->
  Header.frame_id (CameraInfo.header ci)
  = Config.frame_id (resolve_frame_id newconfig)
  /\ (CameraInfo.height ci, CameraInfo.width ci)
     = (to_uint32 (Config.height newconfig),
        to_uint32 (Config.width newconfig))
  /\ (CameraInfo.binning_x ci, CameraInfo.binning_y ci)
     = (to_uint32 (Config.binning_x newconfig),
        to_uint32 (Config.binning_y newconfig))
  /\ CameraInfo.roi ci
     = RegionOfInterest.Make (to_uint32 (Config.roi_offset_x newconfig))
         (to_uint32 (Config.roi_offset_y newconfig))
         (to_uint32 (Config.roi_height newconfig))
         (to_uint32 (Config.roi_width newconfig)) true.
Proof.
  destruct (configure_manager_log self newconfig level)
    as (lu & Hlu & -> & -> & _ & _ & _).
  intros Hloads Hpushed.
  destruct Hlu as [-> | [cam ->]]; [contradiction|].
  destruct (updateCameraInfo_flag_without_load _ _ Hloads ci Hpushed)
    as (Hflag & Hid & Hh & Hw & Hbx & Hby & Hx & Hy & Hrh & Hrw).
  assert (Hsame : forall f : Config.t -> Z,
             (forall c v, f (Config.set_frame_id v c) = f c) ->
             f (resolve_frame_id newconfig) = f newconfig).
  { intros f Hf. unfold resolve_frame_id.
    destruct (String.eqb _ _); [apply Hf | reflexivity]. }
  rewrite Hsame in Hh, Hw, Hbx, Hby, Hx, Hy, Hrh, Hrw by reflexivity.
  split; [exact Hid|].
  rewrite Hh, Hw, Hbx, Hby. repeat split.
  destruct (CameraInfo.roi ci); cbn in *. congruence.
Qed.

(** Writing the operational parameters and the flag a second time changes
    nothing. *)
Lemma record_update_idempotent (config : Config.t) (ci : CameraInfo.t) :
  set_do_rectify config
    (set_operational_parameters config
       (set_do_rectify config (set_operational_parameters config ci)))
  = set_do_rectify config (set_operational_parameters config ci).
Proof. reflexivity. Qed.

(** X11. Asking twice for the same configuration, with the stored URL,
    gives the manager the same record twice, provided the manager gives back
    the second time the record it was given the first time. *)
Theorem reconfigure_same_request_twice (self : MonoCamera Cam Mgr Pub Api)
  (newconfig : Config.t) (level level' : Z) (ci : CameraInfo.t) :
  let r := configure newconfig level self in
  let r' := configure newconfig level' (after r) in
  Config.camera_info_url newconfig = camera_info_url_ self ->
  pushed (calls r) = [ci] ->
  In (GetCameraInfo (Returned ci)) (calls r') ->
  pushed (calls r') = [ci].
Proof.
  cbv zeta. intros Hurl Hfirst Hagain.
  pose proof (proj1 (configure_keeps_members self newconfig level)) as Hkeep.
  rewrite <- (resolve_frame_id_url newconfig) in Hurl.
  (* the first record was written from the request *)
  assert (Hci : exists ci0,
             ci = set_do_rectify (resolve_frame_id newconfig)
                    (set_operational_parameters (resolve_frame_id newconfig)
                                                ci0)).
  { destruct (configure_manager_log self newconfig level)
      as (lu & Hlu & Hp & _).
    rewrite Hp in Hfirst.
    destruct Hlu as [-> | [cam ->]]; [discriminate Hfirst|].
    destruct (updateCameraInfo_same_url _ (set_cam_ cam self) Hurl)
      as (Hl & _).
    assert (Hmember : In ci (pushed (calls (updateCameraInfo
                                              (resolve_frame_id newconfig)
                                              (set_cam_ cam self))))).
    { rewrite Hfirst. left. reflexivity. }
    destruct (proj2 (updateCameraInfo_without_load _ (set_cam_ cam self))
                Hl ci Hmember) as (ci0 & _ & ->).
    eauto. }
  destruct Hci as [ci0 ->].
  (* the second is written from the first *)
  destruct (configure_manager_log (after (configure newconfig level self))
              newconfig level') as (lu & Hlu & -> & _ & _ & _ & Hin).
  apply Hin in Hagain; [|reflexivity].
  destruct Hlu as [-> | [cam ->]]; [contradiction|].
  assert (Hurl' : Config.camera_info_url (resolve_frame_id newconfig)
                  = camera_info_url_
                      (set_cam_ cam (after (configure newconfig level self)))).
  { cbn. rewrite Hkeep. exact Hurl. }
  destruct (updateCameraInfo_same_url _ _ Hurl') as (_ & _ & _ & Hp).
  rewrite (Hp _ Hagain). rewrite record_update_idempotent. reflexivity.
Qed.

End Reconfiguration.

(** ** More on the frame callback *)

Section FrameCallbackMore.

Context {Cam Mgr Pub Api : Type}.
Context {session : CameraSession Cam} {manager : CameraInfoManager Mgr}.
Context {publisher : CameraPublisher Pub} {vimba : VimbaApi Api}.

Ltac run_frameCallback :=
  unfold frameCallback, bind, ros_Time_now, member, on_pub, on_api,
    on_info_man, ROS_WARN_STREAM, ret;
  run_through.

(** X12. The frame callback only reads the calibration: it gives the manager
    no record, no name and no URL, makes no call to the session, writes no
    error line, and leaves the session and the stored members as they were.
    The stamp goes into the copy that is published. *)
Theorem frameCallback_only_reads_calibration
  (self : MonoCamera Cam Mgr Pub Api) (frame : FramePtr) :
  pushed (calls (frameCallback frame self)) = []
  /\ names (calls (frameCallback frame self)) = []
  /\ loads (calls (frameCallback frame self)) = []
  /\ applied (calls (frameCallback frame self)) = []
  /\ filter is_session_call (calls (frameCallback frame self)) = []
  /\ logged Error (calls (frameCallback frame self)) = []
  /\ cam_ (after (frameCallback frame self)) = cam_ self
  /\ camera_info_url_ (after (frameCallback frame self))
     = camera_info_url_ self
  /\ ip_ (after (frameCallback frame self)) = ip_ self
  /\ guid_ (after (frameCallback frame self)) = guid_ self.
Proof. run_frameCallback; repeat split. Qed.

(** X13. The frame callback has no handler: it ends by an exception exactly
    when one of its calls threw, with the object that call threw, whatever
    its type, and after that call it makes no other. *)
Theorem frameCallback_has_no_handler (self : MonoCamera Cam Mgr Pub Api)
  (frame : FramePtr) :
  (forall ev e,
      In ev (calls (frameCallback frame self)) -> raised ev = Some e ->
      result (frameCallback frame self) = Threw e
      /\ last (calls (frameCallback frame self)) ev = ev)
  /\ (forall e,
         result (frameCallback frame self) = Threw e ->
         exists ev,
           In ev (calls (frameCallback frame self)) /\ raised ev = Some e).
Proof.
  run_frameCallback; split.
  all: try (intros ev e' Hin Hraised; cbn in Hin;
            repeat (destruct Hin as [<- | Hin]; [cbn in Hraised|]);
            try contradiction; try discriminate Hraised;
            inversion Hraised; subst; split; reflexivity).
  all: intros e' He;
    first [ discriminate He
          | inversion He; subst; eexists; split;
            [cbn; eauto 10 | reflexivity] ].
Qed.

(** X14. Whatever the frame callback hands to the publisher comes from a
    conversion that succeeded while there was at least one subscriber: the
    image is the converted one and the calibration is the manager's record,
    each with nothing changed but the stamp; and a frame is converted at most
    once. *)
Theorem frameCallback_publishes_only_converted_frames
  (self : MonoCamera Cam Mgr Pub Api) (frame : FramePtr) (img' : Image.t)
  (ci' : CameraInfo.t) :
  In (img', ci') (publications (calls (frameCallback frame self))) ->
  (exists n img ci,
      (0 < n)%N
      /\ In (GetNumSubscribers (Returned n)) (calls (frameCallback frame self))
      /\ In (FrameToImage frame (Returned (true, img)))
            (calls (frameCallback frame self))
      /\ In (GetCameraInfo (Returned ci)) (calls (frameCallback frame self))
      /\ Image.set_header (Image.header img) img' = img
      /\ Header.set_stamp (Header.stamp (Image.header img))
                          (Image.header img')
         = Image.header img
      /\ CameraInfo.set_header (CameraInfo.header ci) ci' = ci
      /\ Header.set_stamp (Header.stamp (CameraInfo.header ci))
                          (CameraInfo.header ci')
         = CameraInfo.header ci)
  /\ conversions (calls (frameCallback frame self)) = 1%nat.
Proof.
  run_frameCallback; intros Hin; cbn in Hin;
    try contradiction; destruct Hin as [Hin | []]; inversion Hin; subst.
  all: split; [|reflexivity].
  all: match goal with
       | H : getNumSubscribers _ = (Returned ?n, _),
         H1 : frameToImage _ _ _ = (Returned (true, ?img), _),
         H2 : getCameraInfo _ = (Returned ?ci, _) |- _ =>
           exists n, img, ci
       end.
  all: repeat split; cbn; auto 10.
  all: try (apply N.ltb_lt; assumption).
  all: repeat match goal with
              | x : Image.t |- _ => destruct x
              | x : CameraInfo.t |- _ => destruct x
              | x : Header.t |- _ => destruct x
              end; reflexivity.
Qed.

End FrameCallbackMore.

(** ** Construction *)

Section Construction.

Context {Cam Mgr Pub Api : Type}.
Context {session : CameraSession Cam} {manager : CameraInfoManager Mgr}.
Context {publisher : CameraPublisher Pub} {vimba : VimbaApi Api}.

(** How the constructor runs. Its first five calls are made in the order
    of lines 54, 57, 60, 63 and 69, each only if the one before returned;
    when one of them throws, the constructor ends by what it threw. When all
    five returned, [configure] runs at level 0xffffffff on the members as the
    five calls and the parameters left them. *)
Lemma MonoCamera_new_run (api : Api) (cam : Cam) (pub : Pub) (mgr : Mgr)
  (clock : Time.t) (param : string -> option string) (initial : Config.t) :
  let ip := param_or param "ip" "" in
  let guid := param_or param "guid" "" in
  let url := param_or param "camera_info_url" "" in
  let r := MonoCamera_new api cam pub mgr clock param initial in
  (exists e,
      result r = Threw e
      /\ (calls r = [ApiStart (Threw e)]
          \/ calls r = [ApiStart (Returned tt);
                        AdvertiseCamera "image_raw" 1 (Threw e)]
          \/ calls r = [ApiStart (Returned tt);
                        AdvertiseCamera "image_raw" 1 (Returned tt);
                        NewCameraInfoManager (Threw e)]
          \/ calls r = [ApiStart (Returned tt);
                        AdvertiseCamera "image_raw" 1 (Returned tt);
                        NewCameraInfoManager (Returned tt);
                        CamSetCallback (Threw e)]
          \/ calls r = [ApiStart (Returned tt);
                        AdvertiseCamera "image_raw" 1 (Returned tt);
                        NewCameraInfoManager (Returned tt);
                        CamSetCallback (Returned tt);
                        CamStart ip guid (Threw e)]))
  \/ (exists api' cam' pub' mgr',
         let self := Build_MonoCamera api' cam' pub' mgr' ip guid url clock in
         let c := configure initial 4294967295 self in
         r = Build_run (result c) (after c)
               ([ApiStart (Returned tt);
                 AdvertiseCamera "image_raw" 1 (Returned tt);
                 NewCameraInfoManager (Returned tt);
                 CamSetCallback (Returned tt);
                 CamStart ip guid (Returned tt)] ++ calls c)).
Proof.
  cbv zeta.
  unfold MonoCamera_new, bind, on_api, on_pub, on_info_man, read_params,
    member, on_cam. cbn.
  destruct (api_start api) as [[[]|e] api']; cbn;
    [|left; exists e; auto].
  destruct (advertiseCamera "image_raw" 1 pub) as [[[]|e] pub']; cbn;
    [|left; exists e; auto].
  destruct (new_CameraInfoManager mgr) as [[[]|e] mgr']; cbn;
    [|left; exists e; auto 6].
  destruct (setCallback cam) as [[[]|e] cam']; cbn;
    [|left; exists e; auto 7].
  destruct (start (param_or param "ip" "") (param_or param "guid" "") cam')
    as [[[]|e] cam'']; cbn; [|left; exists e; auto 8].
  right. exists api', cam'', pub', mgr'.
  match goal with
  | |- context [match configure initial _ ?s with _ => _ end] =>
      change s
        with (Build_MonoCamera api' cam'' pub' mgr' (param_or param "ip" "")
                (param_or param "guid" "")
                (param_or param "camera_info_url" "") clock)
  end.
  match goal with
  | |- context [configure initial ?lvl ?s] =>
      destruct (configure initial lvl s) as [r s' l]
  end.
  reflexivity.
Qed.



(** X16. The calls the constructor makes to the camera session are, in this
    order and up to the first that throws: [setCallback], [start], and then,
    from the initial [configure], [stop], [start] again and [updateConfig]
    with the initial configuration, its frame id resolved. Both starts are
    on the address and identifier read from the parameters (empty when the
    parameter is missing). *)
Theorem MonoCamera_new_restarts_session (api : Api) (cam : Cam) (pub : Pub)
  (mgr : Mgr) (clock : Time.t) (param : string -> option string)
  (initial : Config.t) :
  let r := MonoCamera_new api cam pub mgr clock param initial in
  let ip := param_or param "ip" "" in
  let guid := param_or param "guid" "" in
  let log := filter is_session_call (calls r) in
  (log = [] /\ exists e, result r = Threw e)
  \/ (exists e, log = [CamSetCallback (Threw e)])
  \/ (exists e,
         log = [CamSetCallback (Returned tt); CamStart ip guid (Threw e)])
  \/ (exists e,
         log = [CamSetCallback (Returned tt); CamStart ip guid (Returned tt);
                CamStop (Threw e)])
  \/ (exists e,
         log = [CamSetCallback (Returned tt); CamStart ip guid (Returned tt);
                CamStop (Returned tt); CamStart ip guid (Threw e)])
  \/ (exists a,
         log = [CamSetCallback (Returned tt); CamStart ip guid (Returned tt);
                CamStop (Returned tt); CamStart ip guid (Returned tt);
                CamUpdateConfig (resolve_frame_id initial) a]).
Proof.
  cbv zeta.
  destruct (MonoCamera_new_run api cam pub mgr clock param initial)
    as [(e & Hres & Hlog) | (api' & cam' & pub' & mgr' & Hrun)];
    cbv zeta in *.
  - destruct Hlog as [-> | [-> | [-> | [-> | ->]]]]; cbn.
    + left. eauto.
    + left. eauto.
    + left. eauto.
    + right; left. eauto.
    + right; right; left. eauto.
  - rewrite Hrun. cbn [calls]. cbn [app filter].
    cbn [is_session_call]. rewrite configure_session_log.
    match goal with
    | |- context [apply_to_session ?c ?lvl ?s] =>
        destruct (apply_to_session_cases s c lvl)
          as [(Hz & _)
             | (_ & [(e & c1 & ->) | [(e & c1 & ->) | (a & c1 & ->)]])]
    end.
    + discriminate Hz.
    + right; right; right; left. exists e. reflexivity.
    + right; right; right; right; left. exists e. reflexivity.
    + right; right; right; right; right. exists a. reflexivity.
Qed.

(** X17. When the initial configuration carries the calibration URL that
    the constructor read from the parameter server, construction gives the
    manager no name and has nothing loaded or validated: the URL given at
    start-up is not loaded by the node. *)
Theorem MonoCamera_new_does_not_load_startup_url (api : Api) (cam : Cam)
  (pub : Pub) (mgr : Mgr) (clock : Time.t) (param : string -> option string)
  (initial : Config.t) :
  Config.camera_info_url initial = param_or param "camera_info_url" "" ->
  let r := MonoCamera_new api cam pub mgr clock param initial in
  loads (calls r) = []
  /\ names (calls r) = []
  /\ logged Warn (calls r) = []
  /\ forall url a, ~ In (ValidateURL url a) (calls r).
Proof.
  intros Hurl. cbv zeta.
  destruct (MonoCamera_new_run api cam pub mgr clock param initial)
    as [(e & _ & Hlog) | (api' & cam' & pub' & mgr' & Hrun)];
    cbv zeta in *.
  - destruct Hlog as [-> | [-> | [-> | [-> | ->]]]];
      cbn; repeat split; intros url a Hin; entry Hin.
  - rewrite Hrun. cbn [calls].
    rewrite loads_app, names_app, logged_app. cbn [loads names logged app].
    match goal with
    | |- context [configure initial ?lvl ?s] =>
        destruct (configure_manager_log s initial lvl)
          as (lu & Hlu & _ & -> & -> & -> & Hin);
        set (self := s) in *
    end.
    assert (Hsame : Config.camera_info_url (resolve_frame_id initial)
                    = camera_info_url_ self).
    { rewrite resolve_frame_id_url. exact Hurl. }
    destruct Hlu as [-> | [c1 ->]].
    + repeat split.
      intros url a [H | [H | [H | [H | [H | H]]]]]; try discriminate H.
      apply Hin in H; [contradiction | reflexivity].
    + destruct (updateCameraInfo_same_url (resolve_frame_id initial)
                  (set_cam_ c1 self) Hsame) as (Hl & Hn & Hw & _).
      rewrite Hl, Hn, Hw. repeat split.
      intros url a [H | [H | [H | [H | [H | H]]]]]; try discriminate H.
      apply Hin in H; [|reflexivity]. revert H.
      along_paths (resolve_frame_id initial) (set_cam_ c1 self);
        intros Hv; entry Hv; contradiction.
Qed.

End Construction.

(** ** The further properties on the bench *)

(** X3 on the bench: [updateConfig] throws. *)
Lemma configure_session_failure_bench :
  let self :=
    Bench.bench [Some (StdException "busy")] Bench.vga_calibration 0 "" in
  let newconfig := Config.Make "camera" 480 640 1 1 0 0 480 640 "" in
  let r := configure newconfig 0 self in
  (forall ev', In ev' (calls r) -> is_manager_call ev' = false)
  /\ pushed (calls r) = []
  /\ logged Warn (calls r) = []
  /\ info_man_ (after r) = info_man_ self.
Proof.
  apply (configure_session_failure_skips_manager
           (Bench.bench [Some (StdException "busy")] Bench.vga_calibration
                        0 "")
           (Config.Make "camera" 480 640 1 1 0 0 480 640 "") 0
           (CamUpdateConfig (Config.Make "camera" 480 640 1 1 0 0 480 640 "")
                            (Threw (StdException "busy")))
           (e := StdException "busy")).
  - in_log.
  - reflexivity.
  - reflexivity.
Defined.

(** X8 on the bench: a new, valid URL. *)
Lemma configure_ignores_name_verdict_bench :
  let self := Bench.bench [] CameraInfo.empty 0 "" in
  let newconfig :=
    Config.Make "camera" 480 640 1 1 0 0 480 640 Bench.vga_url in
  let r := configure newconfig 0 self in
  "camera" = Config.frame_id (resolve_frame_id newconfig)
  /\ Config.camera_info_url newconfig <> camera_info_url_ self
  /\ exists a, In (ValidateURL (Config.camera_info_url newconfig) a) (calls r).
Proof.
  apply (configure_ignores_name_verdict
           (Bench.bench [] CameraInfo.empty 0 "")
           (Config.Make "camera" 480 640 1 1 0 0 480 640 Bench.vga_url) 0
           "camera" true).
  in_log.
Defined.

(** X9 on the bench: the 640x480 calibration is loaded for a 100x100
    request with a 50x50 ROI, and goes back to the manager as loaded, its
    flag not set. *)
Lemma configure_after_load_bench :
  let self := Bench.bench [] CameraInfo.empty 0 "" in
  let newconfig :=
    Config.Make "camera" 100 100 2 2 10 20 50 50 Bench.vga_url in
  let r := configure newconfig 0 self in
  pushed (calls r) = [Bench.vga_calibration]
  /\ exists before ci1 done,
      calls r
      = before
        ++ [LoadCameraInfo Bench.vga_url (Returned true);
            GetCameraInfo (Returned ci1);
            SetCameraInfo Bench.vga_calibration done]
        ++ error_line (ended done)
      /\ CameraInfo.header ci1 = CameraInfo.header Bench.vga_calibration
      /\ (CameraInfo.height ci1, CameraInfo.width ci1) = (480, 640)
      /\ CameraInfo.calibration ci1
         = CameraInfo.calibration Bench.vga_calibration.
Proof.
  cbv zeta.
  split; [reflexivity|].
  destruct (configure_after_load_pushes_loaded_record
              (Bench.bench [] CameraInfo.empty 0 "")
              (Config.Make "camera" 100 100 2 2 10 20 50 50 Bench.vga_url) 0
              true)
    as [(before & e & _ & Hnone)
       | (before & ci1 & ci & done & Hcalls & Hone & Hh & Hs & _ & _ & Hc
          & _)].
  - in_log.
  - discriminate Hnone.
  - assert (Hci : ci = Bench.vga_calibration)
      by (vm_compute in Hone; inversion Hone; reflexivity).
    subst ci. exists before, ci1, done.
    split; [exact Hcalls|].
    split; [symmetry; exact Hh|].
    split; [symmetry; exact Hs | symmetry; exact Hc].
Defined.

(** X10 on the bench: the stored URL is requested again, for a 100x100
    image with a 50x50 ROI at (10, 20). *)
Lemma configure_without_load_bench :
  let self := Bench.bench [] Bench.vga_calibration 0 "" in
  let newconfig := Config.Make "" 100 100 2 2 10 20 50 50 "" in
  let ci :=
    set_do_rectify (resolve_frame_id newconfig)
      (set_operational_parameters (resolve_frame_id newconfig)
                                  Bench.vga_calibration) in
  Header.frame_id (CameraInfo.header ci)
  = Config.frame_id (resolve_frame_id newconfig)
  /\ (CameraInfo.height ci, CameraInfo.width ci)
     = (to_uint32 (Config.height newconfig),
        to_uint32 (Config.width newconfig))
  /\ (CameraInfo.binning_x ci, CameraInfo.binning_y ci)
     = (to_uint32 (Config.binning_x newconfig),
        to_uint32 (Config.binning_y newconfig))
  /\ CameraInfo.roi ci
     = RegionOfInterest.Make (to_uint32 (Config.roi_offset_x newconfig))
         (to_uint32 (Config.roi_offset_y newconfig))
         (to_uint32 (Config.roi_height newconfig))
         (to_uint32 (Config.roi_width newconfig)) true.
Proof.
  apply (configure_without_load_pushes_request
           (Bench.bench [] Bench.vga_calibration 0 "")
           (Config.Make "" 100 100 2 2 10 20 50 50 "") 0
           (set_do_rectify
              (resolve_frame_id (Config.Make "" 100 100 2 2 10 20 50 50 ""))
              (set_operational_parameters
                 (resolve_frame_id
                    (Config.Make "" 100 100 2 2 10 20 50 50 ""))
                 Bench.vga_calibration))).
  - reflexivity.
  - in_log.
Defined.

(** X11 on the bench: the table manager gives back what it was given. *)
Lemma reconfigure_same_request_twice_bench :
  let self := Bench.bench [] Bench.vga_calibration 0 "" in
  let newconfig := Config.Make "camera" 100 100 2 2 10 20 50 50 "" in
  let ci :=
    set_do_rectify newconfig
      (set_operational_parameters newconfig Bench.vga_calibration) in
  pushed (calls (configure newconfig 3 (after (configure newconfig 0 self))))
  = [ci].
Proof.
  apply (reconfigure_same_request_twice
           (Bench.bench [] Bench.vga_calibration 0 "")
           (Config.Make "camera" 100 100 2 2 10 20 50 50 "") 0 3).
  - reflexivity.
  - reflexivity.
  - in_log.
Defined.

(** X14 on the bench: one subscriber, a complete frame. *)
Lemma frameCallback_publishes_only_converted_bench :
  let self := Bench.bench [] Bench.vga_calibration 1 "" in
  let r := frameCallback Bench.whole_frame self in
  let stamp := Header.Make 0 (ros_clock self) "" in
  let img' := Image.Make stamp 2 2 "mono8" 0 2 [1; 2; 3; 4] in
  let ci' := CameraInfo.set_header stamp Bench.vga_calibration in
  (exists n img ci,
      (0 < n)%N
      /\ In (GetNumSubscribers (Returned n)) (calls r)
      /\ In (FrameToImage Bench.whole_frame (Returned (true, img))) (calls r)
      /\ In (GetCameraInfo (Returned ci)) (calls r)
      /\ Image.set_header (Image.header img) img' = img
      /\ Header.set_stamp (Header.stamp (Image.header img))
                          (Image.header img')
         = Image.header img
      /\ CameraInfo.set_header (CameraInfo.header ci) ci' = ci
      /\ Header.set_stamp (Header.stamp (CameraInfo.header ci))
                          (CameraInfo.header ci')
         = CameraInfo.header ci)
  /\ conversions (calls r) = 1%nat.
Proof.
  apply (frameCallback_publishes_only_converted_frames
           (Bench.bench [] Bench.vga_calibration 1 "") Bench.whole_frame
           (Image.Make (Header.Make 0 (Time.Make 1700000000 250) "") 2 2
                       "mono8" 0 2 [1; 2; 3; 4])
           (CameraInfo.set_header
              (Header.Make 0 (Time.Make 1700000000 250) "")
              Bench.vga_calibration)).
  in_log.
Defined.

(** X17 on the bench: no parameter is set and the initial configuration has
    no calibration URL. *)
Lemma MonoCamera_new_startup_url_bench :
  let r :=
    MonoCamera_new tt (ScriptedSession.Make [] None None)
      (RecordingPublisher.Make 0 [])
      (TableManager.Make CameraInfo.empty "camera" "" false
         [(Bench.vga_url, Bench.vga_calibration)])
      (Time.Make 1700000000 250) (fun _ => None)
      (Config.Make "" 480 640 1 1 0 0 480 640 "") in
  loads (calls r) = []
  /\ names (calls r) = []
  /\ logged Warn (calls r) = []
  /\ forall url a, ~ In (ValidateURL url a) (calls r).
Proof.
  apply (MonoCamera_new_does_not_load_startup_url tt
           (ScriptedSession.Make [] None None) (RecordingPublisher.Make 0 [])
           (TableManager.Make CameraInfo.empty "camera" "" false
              [(Bench.vga_url, Bench.vga_calibration)])
           (Time.Make 1700000000 250) (fun _ => None)
           (Config.Make "" 480 640 1 1 0 0 480 640 "")).
  reflexivity.
Defined.
